(** * Notes REST API: a shallow embedding of [serveur.js] and [modeleNote.js]

    The server is an Express application over one Mongoose model.  The
    embedding keeps the program's own layering:

    - [Json]: the values [express.json()] puts in [req.body] and [res.json]
      sends back;
    - [JS]: the few language primitives the handlers use ([parseInt],
      [x || d], number to string);
    - [Joi]: the schema [noteSchemaJoi] and [validate] with Joi's default
      preferences (abort at the first error, unknown keys refused);
    - [Mongoose]: the [Note] model of modeleNote.js and the collection
      operations the handlers call;
    - [Multer]: [upload.single('fichier')] over a disk storage;
    - [Express]: requests, responses and the layer stack walked in
      registration order;
    - [Section Server]: the handlers and the application [app], in the order
      of the [app.use]/[app.get]/... calls of serveur.js.

    Conventions.  A character of a [string] stands for one UTF-16 code unit
    below 256, so [String.length] is the [.length] of the JavaScript string.
    Numbers are integers ([Z]); JavaScript computes them exactly below 2^53.
    The database is reachable: a collection operation fails only where the
    driver itself throws (an id that does not cast, a negative skip). *)

From Stdlib Require Import ZArith String Ascii List DecimalString Lia.
From Stdlib Require DecimalPos DecimalZ.
From stdpp Require Import base list strings gmap sorting.

Local Open Scope string_scope.

(* ------------------------------------------------------------------ *)
(** ** JSON values *)

Module Json.

(** [JDate t] is a date, sent as the ISO-8601 string of the millisecond
    timestamp [t].  The fields of an object are listed in the order of
    [Object.keys]. *)
#[local] Unset Elimination Schemes.
Inductive json : Type :=
| JNull
| JBool (b : bool)
| JNum (n : Z)
| JStr (s : string)
| JDate (t : Z)
| JArr (items : list json)
| JObj (fields : list (string * json)).
#[local] Set Elimination Schemes.

(** [value[key]] on the fields of an object. *)
Fixpoint lookup_key (key : string) (fields : list (string * json)) : option json :=
  match fields with
  | [] => None
  | (k, v) :: rest => if String.eqb k key then Some v else lookup_key key rest
  end.

(** [Object.keys(value)]. *)
Definition keys (fields : list (string * json)) : list string := map fst fields.

(** Membership of a key in a list of keys, as a boolean. *)
Definition mem_key (k : string) (ks : list string) : bool :=
  existsb (String.eqb k) ks.

End Json.
Import Json.

(* ------------------------------------------------------------------ *)
(** ** JavaScript primitives *)

Module JS.

(** White space skipped by [parseInt]: TAB, LF, VT, FF, CR, SP, NBSP. *)
Definition is_space (c : ascii) : bool :=
  let n := nat_of_ascii c in
  ((9 <=? n) && (n <=? 13) || (n =? 32) || (n =? 160))%nat.

Fixpoint skip_spaces (s : string) : string :=
  match s with
  | String c rest => if is_space c then skip_spaces rest else s
  | EmptyString => s
  end.

(** Value of a digit in a radix up to 36. *)
Definition digit_value (c : ascii) : option Z :=
  let n := Z.of_nat (nat_of_ascii c) in
  if ((48 <=? n) && (n <=? 57))%Z then Some (n - 48)%Z
  else if ((97 <=? n) && (n <=? 122))%Z then Some (n - 87)%Z
  else if ((65 <=? n) && (n <=? 90))%Z then Some (n - 55)%Z
  else None.

(** The longest prefix of digits of the radix; [None] when it is empty. *)
Fixpoint parse_digits (radix : Z) (s : string) (acc : option Z) : option Z :=
  match s with
  | EmptyString => acc
  | String c rest =>
      match digit_value c with
      | Some d =>
          if (d <? radix)%Z
          then parse_digits radix rest (Some (radix * default 0 acc + d)%Z)
          else acc
      | None => acc
      end
  end.

(** [parseInt(s)] without a radix; [None] is NaN. *)
Definition parseInt_string (s : string) : option Z :=
  let s := skip_spaces s in
  let '(sign, s) :=
    match s with
    | String "-" rest => ((-1)%Z, rest)
    | String "+" rest => (1%Z, rest)
    | _ => (1%Z, s)
    end in
  let '(radix, s) :=
    match s with
    | String "0" (String "x" rest) => (16%Z, rest)
    | String "0" (String "X" rest) => (16%Z, rest)
    | _ => (10%Z, s)
    end in
  Z.mul sign <$> parse_digits radix s None.

(** [parseInt(req.query.k)]: an absent parameter is [undefined], whose
    string form has no digit. *)
Definition parseInt (v : option string) : option Z :=
  v ≫= parseInt_string.

(** [n || d] on a number: NaN and 0 are falsy. *)
Definition num_or (n : option Z) (d : Z) : Z :=
  match n with
  | Some v => if (v =? 0)%Z then d else v
  | None => d
  end.

(** [s || d] on a string that may be undefined: the empty string is falsy. *)
Definition str_or (s : option string) (d : string) : string :=
  match s with
  | Some v => if String.eqb v EmptyString then d else v
  | None => d
  end.

(** Number to string, as [n + '-'] does for an integer. *)
Definition toString (n : Z) : string := NilZero.string_of_int (Z.to_int n).

(** [s.toLowerCase()] on the letters A to Z. *)
Definition lower (c : ascii) : ascii :=
  let n := nat_of_ascii c in
  if ((65 <=? n) && (n <=? 90))%nat then ascii_of_nat (n + 32) else c.

Definition toLowerCase (s : string) : string :=
  string_of_list_ascii (map lower (list_ascii_of_string s)).

(** The code units of the accented letters of the messages. *)
Definition e_acute : string := String "233"%char EmptyString.
Definition e_grave : string := String "232"%char EmptyString.

(** [Math.ceil(a / b)] for integers [a] and [b <> 0]. *)
Definition ceil_div (a b : Z) : Z := (- ((- a) / b))%Z.

End JS.

(* ------------------------------------------------------------------ *)
(** ** Joi *)

Module Joi.

Inductive presence := Optional | Required.

Inductive rule :=
| RMin (limit : nat)
| RMax (limit : nat).

(** A string schema: the rules in the order they were added, and the
    presence flag. *)
Record string_schema := {
  rules : list rule;
  flag_presence : presence
}.

(** [Joi.string()] *)
Definition string_ : string_schema := {| rules := []; flag_presence := Optional |}.

(** [.min(n)], [.max(n)], [.required()] *)
Definition min (n : nat) (s : string_schema) : string_schema :=
  {| rules := rules s ++ [RMin n]; flag_presence := flag_presence s |}.
Definition max (n : nat) (s : string_schema) : string_schema :=
  {| rules := rules s ++ [RMax n]; flag_presence := flag_presence s |}.
Definition required (s : string_schema) : string_schema :=
  {| rules := rules s; flag_presence := Required |}.

(** [Joi.object({...})]: the children in the order of the literal. *)
Definition object_schema := list (string * string_schema).

(** Error codes of Joi, with the limit where the message shows one. *)
Inductive code :=
| any_required
| string_base
| string_empty
| string_min (limit : nat)
| string_max (limit : nat)
| object_base
| object_unknown.

(** One entry of [error.details]: the code and the label it is about. *)
Record error := { err_code : code; err_label : string }.

Definition dquote : string := String "034"%char EmptyString.

(** [error.details[0].message] with Joi's default templates. *)
Definition message (e : error) : string :=
  let label := dquote ++ err_label e ++ dquote in
  match err_code e with
  | any_required => label ++ " is required"
  | string_base => label ++ " must be a string"
  | string_empty => label ++ " is not allowed to be empty"
  | string_min n =>
      label ++ " length must be at least " ++ JS.toString (Z.of_nat n)
            ++ " characters long"
  | string_max n =>
      label ++ " length must be less than or equal to "
            ++ JS.toString (Z.of_nat n) ++ " characters long"
  | object_base => label ++ " must be of type object"
  | object_unknown => label ++ " is not allowed"
  end.

(** One rule on a string value. *)
Definition check_rule (r : rule) (s : string) : option code :=
  match r with
  | RMin n => if (n <=? String.length s)%nat then None else Some (string_min n)
  | RMax n => if (String.length s <=? n)%nat then None else Some (string_max n)
  end.

(** The rules in order, stopping at the first that fails. *)
Fixpoint check_rules (rs : list rule) (s : string) : option code :=
  match rs with
  | [] => None
  | r :: rest =>
      match check_rule r s with
      | Some c => Some c
      | None => check_rules rest s
      end
  end.

(** A [min(0)] rule lets the empty string through. *)
Definition allows_empty (rs : list rule) : bool :=
  existsb (fun r => match r with RMin 0 => true | _ => false end) rs.

(** Validation of one child: presence, base type, emptiness, rules. *)
Definition validate_string (sch : string_schema) (item : option json) : option code :=
  match item with
  | None =>
      match flag_presence sch with
      | Required => Some any_required
      | Optional => None
      end
  | Some (JStr s) =>
      if String.eqb s EmptyString
      then (if allows_empty (rules sch) then None else Some string_empty)
      else check_rules (rules sch) s
  | Some _ => Some string_base
  end.

(** The children in schema order, stopping at the first error. *)
Fixpoint validate_keys (sch : object_schema) (fields : list (string * json))
  : option error :=
  match sch with
  | [] => None
  | (key, child) :: rest =>
      match validate_string child (lookup_key key fields) with
      | Some c => Some {| err_code := c; err_label := key |}
      | None => validate_keys rest fields
      end
  end.

(** The keys of the value that no child consumed, in [Object.keys] order. *)
Definition unprocessed (sch : object_schema) (fields : list (string * json))
  : list string :=
  List.filter (fun k => negb (mem_key k (map fst sch))) (keys fields).

(** [schema.validate(value)]: the first error, or [None].  [value] is
    [None] for [undefined], which a schema that is not required accepts. *)
Definition validate (sch : object_schema) (value : option json) : option error :=
  match value with
  | None => None
  | Some (JObj fields) =>
      match validate_keys sch fields with
      | Some e => Some e
      | None =>
          match unprocessed sch fields with
          | k :: _ => Some {| err_code := object_unknown; err_label := k |}
          | [] => None
          end
      end
  | Some _ => Some {| err_code := object_base; err_label := "value" |}
  end.

End Joi.

(** [noteSchemaJoi] of serveur.js. *)
Definition noteSchemaJoi : Joi.object_schema :=
  [ ("titre",   Joi.required (Joi.max 100 (Joi.min 2 Joi.string_)));
    ("contenu", Joi.required (Joi.max 1000 (Joi.min 2 Joi.string_))) ].

(* ------------------------------------------------------------------ *)
(** ** Awaited calls *)

Module Async.

(** The outcome of an awaited call or of a middleware: a value, or a thrown
    error with its message. *)
Inductive async (A : Type) :=
| Resolved (a : A)
| Rejected (msg : string).
Arguments Resolved {A} a.
Arguments Rejected {A} msg.

End Async.
Import Async.

(* ------------------------------------------------------------------ *)
(** ** Mongoose: the Note model and its collection *)

Module Mongoose.

(** An ObjectId, by its 24-digit hexadecimal form. *)
Definition ObjectId := string.

(** A stored document of the model [Note] (modeleNote.js): the three paths
    of [noteSchema], and [_id] and [__v] that Mongoose adds. *)
Record Note := {
  _id : ObjectId;
  titre : string;
  contenu : string;
  dateAjout : Z;
  __v : Z
}.

(** The paths of the schema. *)
Definition schema_paths : list string :=
  ["titre"; "contenu"; "dateAjout"; "_id"; "__v"].

(** What [res.json(note)] sends. *)
Definition toJSON (n : Note) : json :=
  JObj [ ("titre", JStr (titre n));
         ("contenu", JStr (contenu n));
         ("_id", JStr (_id n));
         ("dateAjout", JDate (dateAjout n));
         ("__v", JNum (__v n)) ].

(** *** Values and their sort order *)

Inductive bson :=
| BNull
| BNumber (n : Z)
| BString (s : string)
| BObjectId (o : ObjectId)
| BDate (t : Z).

(** Rank of the BSON types in MongoDB's comparison order. *)
Definition type_rank (v : bson) : Z :=
  match v with
  | BNull => 1
  | BNumber _ => 2
  | BString _ => 3
  | BObjectId _ => 4
  | BDate _ => 5
  end%Z.

Definition compare_bson (a b : bson) : comparison :=
  match a, b with
  | BNull, BNull => Eq
  | BNumber x, BNumber y => Z.compare x y
  | BString x, BString y => String.compare x y
  | BObjectId x, BObjectId y => String.compare x y
  | BDate x, BDate y => Z.compare x y
  | _, _ => Z.compare (type_rank a) (type_rank b)
  end.

(** The value of a document at a sort path; a path outside the schema is
    a missing field, which sorts as null. *)
Definition field (path : string) (n : Note) : bson :=
  if String.eqb path "titre" then BString (titre n)
  else if String.eqb path "contenu" then BString (contenu n)
  else if String.eqb path "dateAjout" then BDate (dateAjout n)
  else if String.eqb path "_id" then BObjectId (_id n)
  else if String.eqb path "__v" then BNumber (__v n)
  else BNull.

(** [a] may stay before [b] under [{ [path]: order }]; equal keys keep the
    natural order of the collection. *)
Definition before (path : string) (order : Z) (a b : Note) : bool :=
  match compare_bson (field path a) (field path b) with
  | Eq => true
  | Lt => (0 <? order)%Z
  | Gt => (order <? 0)%Z
  end.

Fixpoint insert_by (le : Note -> Note -> bool) (x : Note) (l : list Note)
  : list Note :=
  match l with
  | [] => [x]
  | y :: rest => if le x y then x :: l else y :: insert_by le x rest
  end.

(** [.sort({ [path]: order })] *)
Definition sort (path : string) (order : Z) (l : list Note) : list Note :=
  foldr (insert_by (before path order)) [] l.

(** [.skip(n)]: the server refuses a negative value. *)
Definition skip (n : Z) (l : list Note) : async (list Note) :=
  if (n <? 0)%Z
  then Rejected "Skip value must be non-negative"
  else Resolved (drop (Z.to_nat n) l).

(** [.limit(n)]: the driver sends the absolute value of a negative limit. *)
Definition limit (n : Z) (l : list Note) : list Note :=
  take (Z.to_nat (Z.abs n)) l.

(** [Note.countDocuments()] *)
Definition countDocuments (coll : list Note) : Z := Z.of_nat (length coll).

(** [Note.find().sort(..).skip(..).limit(..)] *)
Definition find_page (path : string) (order skipn limitn : Z) (coll : list Note)
  : async (list Note) :=
  match skip skipn (sort path order coll) with
  | Resolved l => Resolved (limit limitn l)
  | Rejected msg => Rejected msg
  end.

(** *** Validators of the schema *)

(** [required: true] on a String path refuses the empty string. *)
Definition required_ok (s : string) : bool := negb (String.eqb s EmptyString).

Definition path_required (path : string) : string :=
  path ++ ": Path `" ++ path ++ "` is required.".

(** The message of the ValidationError for [titre] and [contenu], if any. *)
Definition validation_error (t c : string) : option string :=
  match required_ok t, required_ok c with
  | true, true => None
  | false, true => Some (path_required "titre")
  | true, false => Some (path_required "contenu")
  | false, false => Some (path_required "titre" ++ ", " ++ path_required "contenu")
  end.

Section Queries.

(** The cast of a string to an ObjectId, [None] when the string is not a
    well-formed identifier.  It belongs to the driver. *)
Variable castObjectId : string -> option ObjectId.

Definition cast_error (value : string) : string :=
  "Cast to ObjectId failed for value " ++ Joi.dquote ++ value ++ Joi.dquote
  ++ " (type string) at path " ++ Joi.dquote ++ "_id" ++ Joi.dquote
  ++ " for model " ++ Joi.dquote ++ "Note" ++ Joi.dquote.

(** The first document with the given [_id], with its position. *)
Definition find_id (oid : ObjectId) (coll : list Note) : option (nat * Note) :=
  list_find (fun n => _id n = oid) coll.

(** [Note.findById(id)] *)
Definition findById (id : string) (coll : list Note) : async (option Note) :=
  match castObjectId id with
  | None => Rejected (cast_error id)
  | Some oid => Resolved (snd <$> find_id oid coll)
  end.

(** [new Note({ titre, contenu })] then [note.save()]: [oid] is the id the
    constructor generates and [now] the value of [Date.now] it takes as
    the default of [dateAjout]. *)
Definition save (oid : ObjectId) (now : Z) (t c : string) (coll : list Note)
  : list Note * async Note :=
  match validation_error t c with
  | Some msg => (coll, Rejected ("Note validation failed: " ++ msg))
  | None =>
      let note := {| _id := oid; titre := t; contenu := c;
                     dateAjout := now; __v := 0 |} in
      ((coll ++ [note])%list, Resolved note)
  end.

(** The update [{ titre, contenu }] applied to a document. *)
Definition set_fields (t c : string) (n : Note) : Note :=
  {| _id := _id n; titre := t; contenu := c;
     dateAjout := dateAjout n; __v := __v n |}.

(** [Note.findByIdAndUpdate(id, { titre, contenu },
                            { new: true, runValidators: true })] *)
Definition findByIdAndUpdate (id : string) (t c : string) (coll : list Note)
  : list Note * async (option Note) :=
  match castObjectId id with
  | None => (coll, Rejected (cast_error id))
  | Some oid =>
      match validation_error t c with
      | Some msg => (coll, Rejected ("Validation failed: " ++ msg))
      | None =>
          match find_id oid coll with
          | Some (i, n) =>
              (<[i := set_fields t c n]> coll, Resolved (Some (set_fields t c n)))
          | None => (coll, Resolved None)
          end
      end
  end.

(** [Note.findByIdAndDelete(id)] *)
Definition findByIdAndDelete (id : string) (coll : list Note)
  : list Note * async (option Note) :=
  match castObjectId id with
  | None => (coll, Rejected (cast_error id))
  | Some oid =>
      match find_id oid coll with
      | Some (i, n) => (delete i coll, Resolved (Some n))
      | None => (coll, Resolved None)
      end
  end.

End Queries.

(** The cast of current Mongoose, used for the sample requests: exactly 24
    hexadecimal digits, read without regard to case.  (Mongoose 5 also took
    any string of 12 characters; the theorems hold for every cast.) *)
Definition is_hex (c : ascii) : bool :=
  match JS.digit_value c with
  | Some d => (d <? 16)%Z
  | None => false
  end.

Definition hex24 (s : string) : option ObjectId :=
  if ((String.length s =? 24)%nat && forallb is_hex (list_ascii_of_string s))
  then Some (JS.toLowerCase s)
  else None.

End Mongoose.

(* ------------------------------------------------------------------ *)
(** ** Multer: one file under a fixed field, on disk *)

Module Multer.

(** A part of a multipart body: a text field or a file. *)
Inductive part :=
| Field (name value : string)
| File (fieldname originalname : string).

(** [req.file] *)
Record file := {
  file_fieldname : string;
  originalname : string;
  filename : string
}.

(** The parts in order.  [left] is the number of files still accepted
    under [name]; a file part without a name is skipped; any other file is
    an unexpected field. *)
Fixpoint single_go (name : string) (mk_filename : string -> string)
    (left : nat) (parts : list part) (acc : option file)
  : async (option file) :=
  match parts with
  | [] => Resolved acc
  | Field _ _ :: rest => single_go name mk_filename left rest acc
  | File fld orig :: rest =>
      if String.eqb orig EmptyString then single_go name mk_filename left rest acc
      else if String.eqb fld name then
        match left with
        | O => Rejected "Unexpected field"
        | S left' =>
            single_go name mk_filename left' rest
              (Some {| file_fieldname := fld; originalname := orig;
                       filename := mk_filename orig |})
        end
      else Rejected "Unexpected field"
  end.

(** [upload.single(name)]: [parts] is [None] when the request is not
    multipart, and the middleware then leaves [req.file] undefined. *)
Definition single (name : string) (mk_filename : string -> string)
    (parts : option (list part)) : async (option file) :=
  match parts with
  | None => Resolved None
  | Some ps => single_go name mk_filename 1 ps None
  end.

End Multer.

(* ------------------------------------------------------------------ *)
(** ** Express: requests, responses and the layer stack *)

Module Express.

Inductive method := GET | HEAD | POST | PUT | DELETE | OPTIONS | PATCH.

(** A request after the parsers: the path by its segments, [req.query],
    [req.body] ([None] is undefined), the multipart parts if any. *)
Record request := {
  req_method : method;
  req_path : list string;
  req_query : gmap string string;
  req_body : option json;
  req_protocol : string;
  req_host : option string;
  req_parts : option (list Multer.part)
}.

(** What a handler reads outside the request: [Date.now()] and the
    ObjectId a new document receives. *)
Record world := { now : Z; new_id : Mongoose.ObjectId }.

(** The collection of notes and the names in the directory [uploads/]. *)
Record state := {
  notes : list Mongoose.Note;
  uploads : list string
}.

Inductive res_body :=
| Json (j : json)
| NoContent
| FileContent (name : string)
| Html.

Record response := { status : nat; body : res_body }.

(** [res.status(code).json(j)] and [res.json(j)] *)
Definition status_json (code : nat) (j : json) : response :=
  {| status := code; body := Json j |}.
Definition res_json (j : json) : response := status_json 200 j.

(** What a handler does with the request: answer, [next()] or [next(err)]. *)
Inductive outcome :=
| Respond (r : response)
| Next
| NextErr (msg : string).

Definition handler := world -> request -> state -> state * outcome.

Inductive segment :=
| Lit (s : string)
| Param (name : string).

(** [req.params] *)
Definition params := list (string * string).

Inductive layer :=
| Use (h : handler)
| UseAt (prefix : list string) (h : list string -> handler)
| Route (m : method) (pattern : list segment) (h : params -> handler)
| OnError (h : string -> request -> response).

(** Routing is not case sensitive. *)
Definition same_segment (a b : string) : bool :=
  String.eqb (JS.toLowerCase a) (JS.toLowerCase b).

(** A pattern against the whole path. *)
Fixpoint match_path (pattern : list segment) (path : list string)
  : option params :=
  match pattern, path with
  | [], [] => Some []
  | Lit s :: pat, x :: rest =>
      if same_segment s x then match_path pat rest else None
  | Param name :: pat, x :: rest =>
      (fun ps => (name, x) :: ps) <$> match_path pat rest
  | _, _ => None
  end.

(** A mount point against the start of the path: the rest of the path. *)
Fixpoint match_prefix (prefix path : list string) : option (list string) :=
  match prefix, path with
  | [], rest => Some rest
  | s :: pre, x :: rest =>
      if same_segment s x then match_prefix pre rest else None
  | _ :: _, [] => None
  end.

Definition method_eqb (a b : method) : bool :=
  match a, b with
  | GET, GET | HEAD, HEAD | POST, POST | PUT, PUT
  | DELETE, DELETE | OPTIONS, OPTIONS | PATCH, PATCH => true
  | _, _ => false
  end.

(** A route bound with [app.get] also serves HEAD. *)
Definition method_matches (route_m req_m : method) : bool :=
  method_eqb route_m req_m
  || (method_eqb route_m GET && method_eqb req_m HEAD).

(** [req.params.name] *)
Fixpoint param (name : string) (ps : params) : string :=
  match ps with
  | [] => EmptyString
  | (k, v) :: rest => if String.eqb k name then v else param name rest
  end.

(** When no layer answers, Express ends the request itself. *)
Definition finalhandler (err : option string) : response :=
  match err with
  | None => {| status := 404; body := Html |}
  | Some _ => {| status := 500; body := Html |}
  end.

(** The stack in registration order.  Without a pending error the error
    handlers are skipped; with one, only they are run. *)
Fixpoint dispatch (stack : list layer) (err : option string)
    (w : world) (req : request) (st : state) : state * response :=
  let continue (rest : list layer) (r : state * outcome) :=
    match r with
    | (st', Respond res) => (st', res)
    | (st', Next) => dispatch rest None w req st'
    | (st', NextErr e) => dispatch rest (Some e) w req st'
    end in
  match stack with
  | [] => (st, finalhandler err)
  | l :: rest =>
      match err, l with
      | Some e, OnError h => (st, h e req)
      | Some e, _ => dispatch rest err w req st
      | None, OnError _ => dispatch rest None w req st
      | None, Use h => continue rest (h w req st)
      | None, UseAt prefix h =>
          match match_prefix prefix (req_path req) with
          | Some sub => continue rest (h sub w req st)
          | None => dispatch rest None w req st
          end
      | None, Route m pattern h =>
          if method_matches m (req_method req) then
            match match_path pattern (req_path req) with
            | Some ps => continue rest (h ps w req st)
            | None => dispatch rest None w req st
            end
          else dispatch rest None w req st
      end
  end.

End Express.

(* ------------------------------------------------------------------ *)
(** ** serveur.js: the handlers and the application *)

Import Mongoose Express.

(** The entity-not-found message and the other fixed texts. *)
Definition msg_not_found : string := "Note non trouv" ++ JS.e_acute ++ "e.".
Definition msg_no_file : string := "Aucun fichier envoy" ++ JS.e_acute ++ ".".
Definition msg_uploaded : string :=
  "Fichier upload" ++ JS.e_acute ++ " avec succ" ++ JS.e_grave ++ "s".
Definition msg_updated : string :=
  "Note modifi" ++ JS.e_acute ++ "e avec succ" ++ JS.e_grave ++ "s".
Definition msg_deleted : string :=
  "Note supprim" ++ JS.e_acute ++ "e avec succ" ++ JS.e_grave ++ "s".
Definition msg_listing_failed : string :=
  "Erreur lors de la r" ++ JS.e_acute ++ "cup" ++ JS.e_acute
  ++ "ration des notes.".

(** [{ erreur: msg }] *)
Definition erreur (msg : string) : json := JObj [("erreur", JStr msg)].

(** [storage.filename]: [Date.now() + '-' + file.originalname] *)
Definition storage_filename (now : Z) (originalname : string) : string :=
  JS.toString now ++ "-" ++ originalname.

(** A string property of the body. *)
Definition str_prop (key : string) (b : json) : option string :=
  match b with
  | JObj fields =>
      match lookup_key key fields with
      | Some (JStr s) => Some s
      | _ => None
      end
  | _ => None
  end.

Definition msg_destructure : string :=
  "Cannot destructure property 'titre' of 'req.body' as it is undefined.".

(** [const { titre, contenu } = req.body] once Joi has accepted the body:
    the pair of strings; an undefined body throws a TypeError.  Joi lets
    through an object only if both are strings ([validate_accepts] below),
    so the last case is not taken after a successful validation. *)
Definition destructure (b : option json) : async (string * string) :=
  match b with
  | None => Rejected msg_destructure
  | Some j =>
      match str_prop "titre" j, str_prop "contenu" j with
      | Some t, Some c => Resolved (t, c)
      | _, _ => Rejected "Note validation failed"
      end
  end.

Section Server.

Variable castObjectId : string -> option ObjectId.

(** [cors()] answers a preflight request itself. *)
Definition cors : handler := fun w req st =>
  match req_method req with
  | OPTIONS => (st, Respond {| status := 204; body := NoContent |})
  | _ => (st, Next)
  end.

(** [helmet()], [express.json()] and the log middleware pass the request
    on.  [req_body] is the result of [express.json()], which is strict: it
    lets through only an object or an array ([parser_accepts] below).  A
    body it refuses, malformed text or a primitive, is answered by the error
    middleware before any route is tried; such a request is outside the
    model, and the properties that depend on the body say so by a
    hypothesis. *)
Definition pass : handler := fun w req st => (st, Next).

(** [express.static] mounted on [/uploads]: a plain GET or HEAD of a stored
    file.  What the middleware does with the path of the directory itself (a
    redirect), and with conditional or range requests, is outside the
    model. *)
Definition serve_uploads (sub : list string) : handler := fun w req st =>
  match req_method req, sub with
  | (GET | HEAD), [name] =>
      if mem_key name (uploads st)
      then (st, Respond {| status := 200; body := FileContent name |})
      else (st, Next)
  | _, _ => (st, Next)
  end.

(** [app.post('/upload', upload.single('fichier'), ...)] *)
Definition postUpload (ps : params) : handler := fun w req st =>
  match Multer.single "fichier" (storage_filename (now w)) (req_parts req) with
  | Rejected msg => (st, NextErr msg)
  | Resolved None => (st, Respond (status_json 400 (erreur msg_no_file)))
  | Resolved (Some f) =>
      let fileUrl :=
        req_protocol req ++ "://" ++ default "undefined" (req_host req)
        ++ "/uploads/" ++ Multer.filename f in
      ({| notes := notes st;
          uploads := (uploads st ++ [Multer.filename f])%list |},
       Respond (status_json 201
                  (JObj [("message", JStr msg_uploaded); ("url", JStr fileUrl)])))
  end.

(** [app.post('/notes', ...)] *)
Definition postNotes (ps : params) : handler := fun w req st =>
  match Joi.validate noteSchemaJoi (req_body req) with
  | Some e => (st, Respond (status_json 400 (erreur (Joi.message e))))
  | None =>
      match destructure (req_body req) with
      | Rejected msg => (st, NextErr msg)
      | Resolved (t, c) =>
          match save (new_id w) (now w) t c (notes st) with
          | (coll, Resolved note) =>
              ({| notes := coll; uploads := uploads st |},
               Respond (status_json 201 (toJSON note)))
          | (coll, Rejected msg) =>
              ({| notes := coll; uploads := uploads st |}, NextErr msg)
          end
      end
  end.

(** The first [app.get('/notes', ...)]: every note. *)
Definition getNotes (ps : params) : handler := fun w req st =>
  (st, Respond (res_json (JArr (map toJSON (notes st))))).

(** [app.get('/notes/:id', ...)] *)
Definition getNoteById (ps : params) : handler := fun w req st =>
  match findById castObjectId (param "id" ps) (notes st) with
  | Rejected msg => (st, NextErr msg)
  | Resolved None => (st, Respond (status_json 404 (erreur msg_not_found)))
  | Resolved (Some note) => (st, Respond (res_json (toJSON note)))
  end.

(** [app.put('/notes/:id', ...)] *)
Definition putNote (ps : params) : handler := fun w req st =>
  match Joi.validate noteSchemaJoi (req_body req) with
  | Some e => (st, Respond (status_json 400 (erreur (Joi.message e))))
  | None =>
      match destructure (req_body req) with
      | Rejected msg => (st, NextErr msg)
      | Resolved (t, c) =>
          match findByIdAndUpdate castObjectId (param "id" ps) t c (notes st) with
          | (coll, Rejected msg) =>
              ({| notes := coll; uploads := uploads st |}, NextErr msg)
          | (coll, Resolved None) =>
              ({| notes := coll; uploads := uploads st |},
               Respond (status_json 404 (erreur msg_not_found)))
          | (coll, Resolved (Some note)) =>
              ({| notes := coll; uploads := uploads st |},
               Respond (res_json (JObj [("message", JStr msg_updated);
                                        ("note", toJSON note)])))
          end
      end
  end.

(** [app.delete('/notes/:id', ...)] *)
Definition deleteNote (ps : params) : handler := fun w req st =>
  match findByIdAndDelete castObjectId (param "id" ps) (notes st) with
  | (coll, Rejected msg) =>
      ({| notes := coll; uploads := uploads st |}, NextErr msg)
  | (coll, Resolved None) =>
      ({| notes := coll; uploads := uploads st |},
       Respond (status_json 404 (erreur msg_not_found)))
  | (coll, Resolved (Some _)) =>
      ({| notes := coll; uploads := uploads st |},
       Respond (res_json (JObj [("message", JStr msg_deleted)])))
  end.

(** The error middleware. *)
Definition errorHandler (msg : string) (req : request) : response :=
  status_json 500 (JObj [("erreur", JStr "Erreur serveur"); ("details", JStr msg)]).

(** The catch-all of unknown routes. *)
Definition unknownRoute : handler := fun w req st =>
  (st, Respond (status_json 404 (erreur "Route inconnue"))).

(** The query of the paginated listing, as the handler reads it.  The
    integers are those of JavaScript as long as they stay below 2^53
    ([exact_page_query] below); past that the code rounds them. *)
Definition query_page (q : gmap string string) : Z :=
  JS.num_or (JS.parseInt (q !! "page")) 1.
Definition query_limit (q : gmap string string) : Z :=
  JS.num_or (JS.parseInt (q !! "limit")) 10.
Definition query_sortBy (q : gmap string string) : string :=
  JS.str_or (q !! "sortBy") "date".
Definition query_sortOrder (q : gmap string string) : Z :=
  match q !! "order" with
  | Some o => if String.eqb o "asc" then 1 else (-1)
  | None => (-1)
  end%Z.

(** The second [app.get('/notes', ...)]: the paginated listing. *)
Definition getNotesPaged (ps : params) : handler := fun w req st =>
  let page := query_page (req_query req) in
  let limit := query_limit (req_query req) in
  let sortBy := query_sortBy (req_query req) in
  let sortOrder := query_sortOrder (req_query req) in
  let skip := ((page - 1) * limit)%Z in
  let totalNotes := countDocuments (notes st) in
  match find_page sortBy sortOrder skip limit (notes st) with
  | Resolved found =>
      (st, Respond (res_json
             (JObj [ ("page", JNum page);
                     ("totalPages", JNum (JS.ceil_div totalNotes limit));
                     ("totalNotes", JNum totalNotes);
                     ("notes", JArr (map toJSON found)) ])))
  | Rejected _ =>
      (st, Respond (status_json 500 (JObj [("error", JStr msg_listing_failed)])))
  end.

(** The application: the layers in the order serveur.js registers them. *)
Definition app : list layer :=
  [ Use pass;                                             (* helmet() *)
    Use cors;
    UseAt ["uploads"] serve_uploads;
    Use pass;                                             (* express.json() *)
    Use pass;                                             (* logs *)
    Route POST [Lit "upload"] postUpload;
    Route POST [Lit "notes"] postNotes;
    Route GET [Lit "notes"] getNotes;
    Route GET [Lit "notes"; Param "id"] getNoteById;
    Route PUT [Lit "notes"; Param "id"] putNote;
    Route DELETE [Lit "notes"; Param "id"] deleteNote;
    OnError errorHandler;
    Use unknownRoute;
    Route GET [Lit "notes"] getNotesPaged ].

(** One request through the application. *)
Definition serve (w : world) (req : request) (st : state) : state * response :=
  dispatch app None w req st.

End Server.

(* ------------------------------------------------------------------ *)
(** ** Vocabulary of the properties *)

(** The constraints [noteSchemaJoi] puts on one field, in the order Joi
    checks them: presence, type, emptiness, then the rules. *)
Inductive constraint :=
| CRequired
| CString
| CNonEmpty
| CMin (limit : nat)
| CMax (limit : nat).

(** Does the value of a field ([None] when the key is absent) violate a
    constraint? *)
Definition violated (c : constraint) (item : option json) : bool :=
  match c, item with
  | CRequired, None => true
  | CString, Some (JStr _) => false
  | CString, Some _ => true
  | CNonEmpty, Some (JStr s) => String.eqb s EmptyString
  | CMin n, Some (JStr s) => (String.length s <? n)%nat
  | CMax n, Some (JStr s) => (n <? String.length s)%nat
  | _, _ => false
  end.

(** The constraints of a field whose length must be in [[lo, hi]]. *)
Definition field_constraints (key : string) (lo hi : nat)
  : list (string * constraint) :=
  [ (key, CRequired); (key, CString); (key, CNonEmpty);
    (key, CMin lo); (key, CMax hi) ].

(** All the constraints of a note payload: the title first, then the
    content. *)
Definition note_constraints : list (string * constraint) :=
  (field_constraints "titre" 2 100 ++ field_constraints "contenu" 2 1000)%list.

(** The first constraint a payload violates, with the field it is about. *)
Definition first_violated (fields : list (string * json))
  : option (string * constraint) :=
  find (fun kc => violated (snd kc) (lookup_key (fst kc) fields)) note_constraints.

(** The Joi error that reports a violated constraint. *)
Definition code_of (c : constraint) : Joi.code :=
  match c with
  | CRequired => Joi.any_required
  | CString => Joi.string_base
  | CNonEmpty => Joi.string_empty
  | CMin n => Joi.string_min n
  | CMax n => Joi.string_max n
  end.

Definition error_of (kc : string * constraint) : Joi.error :=
  {| Joi.err_code := code_of (snd kc); Joi.err_label := fst kc |}.


(** The body is an object whose keys are exactly those of the list. *)
Definition keys_exactly (ks : list string) (b : json) : bool :=
  match b with
  | JObj fields =>
      forallb (fun k => mem_key k ks) (keys fields)
      && forallb (fun k => mem_key k (keys fields)) ks
  | _ => false
  end.

(** The file parts of a multipart body. *)
Definition file_parts (ps : list Multer.part) : list Multer.part :=
  List.filter (fun p => match p with Multer.File _ _ => true | _ => false end) ps.

(** The ids of the stored notes. *)
Definition ids (st : state) : list ObjectId := _id <$> notes st.

(** The response of the application once a route handler of [app] has run:
    its own answer, the error middleware after [next(err)], the catch-all
    after [next()]. *)
Definition settle (req : request) (r : state * outcome) : state * response :=
  match r with
  | (st', Respond res) => (st', res)
  | (st', Next) => (st', status_json 404 (erreur "Route inconnue"))
  | (st', NextErr e) => (st', errorHandler e req)
  end.

(** The application without its last layer, the paginated listing. *)
Definition app_without_paged (castObjectId : string -> option ObjectId)
  : list layer :=
  take 13 (app castObjectId).

(** A page cut from the collection in its natural order. *)
Definition natural_page (skipn limitn : Z) (coll : list Note)
  : async (list Note) :=
  match skip skipn coll with
  | Resolved l => Resolved (limit limitn l)
  | Rejected msg => Rejected msg
  end.

(** What [res.json] sends for a page. *)
Definition page_json (page totalPages totalNotes : Z) (found : list Note) : json :=
  JObj [ ("page", JNum page);
         ("totalPages", JNum totalPages);
         ("totalNotes", JNum totalNotes);
         ("notes", JArr (map toJSON found)) ].

(** The lifecycle of the state: what one request may do to it. *)
Inductive change (w : world) (st st' : state) : Prop :=
| Created (t c : string) :
    (2 <= String.length t <= 100)%nat -> (2 <= String.length c <= 1000)%nat ->
    st' = {| notes := notes st ++ [ {| _id := new_id w; titre := t; contenu := c;
                                      dateAjout := now w; __v := 0 |} ];
             uploads := uploads st |} ->
    change w st st'
| Updated (i : nat) (n : Note) (t c : string) :
    notes st !! i = Some n ->
    (2 <= String.length t <= 100)%nat -> (2 <= String.length c <= 1000)%nat ->
    st' = {| notes := <[i := set_fields t c n]> (notes st);
             uploads := uploads st |} ->
    change w st st'
| Deleted (i : nat) (n : Note) :
    notes st !! i = Some n ->
    st' = {| notes := delete i (notes st); uploads := uploads st |} ->
    change w st st'
| Uploaded (name : string) :
    st' = {| notes := notes st; uploads := (uploads st ++ [name])%list |} ->
    change w st st'.

(** A handler leaves the state as it is, or changes it and answers. *)
Definition quiet_or_final (w : world) (st : state) (r : state * outcome) : Prop :=
  fst r = st \/ (exists res, snd r = Respond res) /\ change w st (fst r).

Definition layer_ok (w : world) (req : request) (l : layer) : Prop :=
  match l with
  | Use h => forall st, quiet_or_final w st (h w req st)
  | UseAt _ h => forall sub st, quiet_or_final w st (h sub w req st)
  | Route _ _ h => forall ps st, quiet_or_final w st (h ps w req st)
  | OnError _ => True
  end.

(** The invariant of the data model: the title and the content of a stored
    note are within the bounds of the schema, and ids are unique. *)
Definition note_ok (n : Note) : Prop :=
  (2 <= String.length (titre n) <= 100)%nat
  /\ (2 <= String.length (contenu n) <= 1000)%nat.

Definition well_formed (st : state) : Prop :=
  NoDup (ids st) /\ Forall note_ok (notes st).

(** What [express.json()], strict by default, lets through as a JSON body:
    an object or an array. *)
Definition strict_json (b : json) : bool :=
  match b with
  | JObj _ | JArr _ => true
  | _ => false
  end.

(** The body of a request the parser lets through: none, or an object or an
    array. *)
Definition parser_accepts (b : option json) : bool :=
  match b with
  | None => true
  | Some j => strict_json j
  end.

(** An integer JavaScript holds exactly. *)
Definition safe_integer (n : Z) : bool := (Z.abs n <? 2 ^ 53)%Z.

(** The page, the limit and the skip of the query are held exactly. *)
Definition exact_page_query (q : gmap string string) : bool :=
  safe_integer (query_page q) && safe_integer (query_limit q)
  && safe_integer ((query_page q - 1) * query_limit q).


(** The first segment of the path is one the application mounts or routes:
    [/uploads], [/upload] or [/notes]. *)
Definition known_prefix (path : list string) : bool :=
  match path with
  | seg :: _ =>
      same_segment "uploads" seg || same_segment "upload" seg
      || same_segment "notes" seg
  | [] => false
  end.

(** The methods that only read. *)
Definition is_safe (m : method) : bool :=
  match m with
  | GET | HEAD | OPTIONS => true
  | _ => false
  end.

(** A layer that leaves the state as it is whenever it runs for the
    request. *)
Definition layer_quiet (w : world) (req : request) (l : layer) : Prop :=
  match l with
  | Use h => forall st, fst (h w req st) = st
  | UseAt _ h => forall sub st, fst (h sub w req st) = st
  | Route m _ h =>
      method_matches m (req_method req) = true ->
      forall ps st, fst (h ps w req st) = st
  | OnError _ => True
  end.





(** The order of a listing sorted on [dateAjout]: oldest first when the
    direction is positive, newest first otherwise. *)
Definition by_dateAjout (order : Z) (a b : Note) : Prop :=
  if (0 <? order)%Z then (dateAjout a <= dateAjout b)%Z
  else (dateAjout b <= dateAjout a)%Z.

(* ------------------------------------------------------------------ *)
(** ** Sample data *)

Definition ex_world : world :=
  {| now := 1700000000000; new_id := "65a000000000000000000003" |}.

Definition ex_note1 : Note :=
  {| _id := "65a000000000000000000001"; titre := "Maths";
     contenu := "Calcul integral"; dateAjout := 1690000000000; __v := 0 |}.

Definition ex_note2 : Note :=
  {| _id := "65a000000000000000000002"; titre := "Algo";
     contenu := "Tri fusion"; dateAjout := 1695000000000; __v := 0 |}.

Definition ex_state : state :=
  {| notes := [ex_note1; ex_note2]; uploads := [] |}.

(** A request to [http://localhost:3000]. *)
Definition ex_request (m : method) (path : list string)
    (q : gmap string string) (b : option json)
    (parts : option (list Multer.part)) : request :=
  {| req_method := m; req_path := path; req_query := q; req_body := b;
     req_protocol := "http"; req_host := Some "localhost:3000";
     req_parts := parts |}.

(** Bodies of notes: the keys of the schema, a title that is too short,
    the English keys. *)
Definition ex_body : json :=
  JObj [("titre", JStr "Maths"); ("contenu", JStr "Calcul integral")].
Definition ex_english_keys : json :=
  JObj [("title", JStr "Maths"); ("content", JStr "Calcul integral")].

(** The note that a creation in [ex_world] adds, and the state after it. *)
Definition ex_note3 : Note :=
  {| _id := "65a000000000000000000003"; titre := "Maths";
     contenu := "Calcul integral"; dateAjout := 1700000000000; __v := 0 |}.

Definition ex_state_created : state :=
  {| notes := [ex_note1; ex_note2; ex_note3]; uploads := [] |}.

(** Multipart bodies: one file under [fichier] after a text field, and two
    files under [fichier]. *)
Definition ex_one_file : list Multer.part :=
  [Multer.Field "nom" "cours"; Multer.File "fichier" "cours.pdf"].



(* ------------------------------------------------------------------ *)
(** ** Routing: which handler a request reaches *)

Section Routing.

Variable castObjectId : string -> option ObjectId.

Ltac route h :=
  intros w req st Hm Hp; destruct req; simpl in Hm, Hp; subst;
  unfold serve, app; cbv -[h];
  match goal with
  | |- context [h ?c ?ps ?w ?r ?s] => destruct (h c ps w r s) as [? [?| |?]]
  | |- context [h ?ps ?w ?r ?s] => destruct (h ps w r s) as [? [?| |?]]
  end; reflexivity.

Lemma serve_post_upload w req st :
  req_method req = POST -> req_path req = ["upload"] ->
  serve castObjectId w req st = settle req (postUpload [] w req st).
Proof. revert w req st. route postUpload. Qed.

Lemma serve_post_notes w req st :
  req_method req = POST -> req_path req = ["notes"] ->
  serve castObjectId w req st = settle req (postNotes [] w req st).
Proof. revert w req st. route postNotes. Qed.

Lemma serve_get_notes w req st :
  req_method req = GET -> req_path req = ["notes"] ->
  serve castObjectId w req st = settle req (getNotes [] w req st).
Proof. revert w req st. route getNotes. Qed.

Lemma serve_get_note w req st id :
  req_method req = GET -> req_path req = ["notes"; id] ->
  serve castObjectId w req st
  = settle req (getNoteById castObjectId [("id", id)] w req st).
Proof. revert w req st. route getNoteById. Qed.

Lemma serve_put_note w req st id :
  req_method req = PUT -> req_path req = ["notes"; id] ->
  serve castObjectId w req st
  = settle req (putNote castObjectId [("id", id)] w req st).
Proof. revert w req st. route putNote. Qed.

Lemma serve_delete_note w req st id :
  req_method req = DELETE -> req_path req = ["notes"; id] ->
  serve castObjectId w req st
  = settle req (deleteNote castObjectId [("id", id)] w req st).
Proof. revert w req st. route deleteNote. Qed.

End Routing.

(* ------------------------------------------------------------------ *)
(** ** Validation: what [noteSchemaJoi] accepts and what it reports *)

Lemma ltb_negb_leb (a b : nat) : (a <? b)%nat = negb (b <=? a)%nat.
Proof. apply Nat.ltb_antisym. Qed.

Lemma find_app_first {A} (p : A -> bool) (l1 l2 : list A) :
  find p (l1 ++ l2)%list
  = match find p l1 with Some x => Some x | None => find p l2 end.
Proof.
  induction l1 as [|x l1 IH]; [reflexivity|].
  cbn. destruct (p x); [reflexivity | exact IH].
Qed.

(** The error of one child is the first constraint of the field that its
    value violates. *)
Lemma validate_string_first (key : string) (lo hi : nat) (item : option json) :
  (0 < lo)%nat ->
  Joi.validate_string (Joi.required (Joi.max hi (Joi.min lo Joi.string_))) item
  = (fun kc => code_of (snd kc))
      <$> find (fun kc => violated (snd kc) item) (field_constraints key lo hi).
Proof.
  intros Hlo. destruct item as [j|]; [|reflexivity].
  destruct j; try reflexivity.
  cbn -[Nat.ltb Nat.leb]. rewrite !ltb_negb_leb.
  destruct (String.eqb s EmptyString) eqn:Hs; cbn -[Nat.ltb Nat.leb].
  - destruct lo; [lia | reflexivity].
  - destruct (lo <=? String.length s)%nat; cbn -[Nat.ltb Nat.leb]; [|reflexivity].
    destruct (String.length s <=? hi)%nat; reflexivity.
Qed.

(** [validate_keys] returns the first violated constraint of the payload. *)
Lemma validate_keys_first (fields : list (string * json)) :
  Joi.validate_keys noteSchemaJoi fields = error_of <$> first_violated fields.
Proof.
  unfold noteSchemaJoi, first_violated, note_constraints.
  cbn [Joi.validate_keys].
  rewrite (validate_string_first "titre") by lia.
  rewrite (validate_string_first "contenu") by lia.
  rewrite find_app_first.
  assert (Hk : forall key lo hi,
             find (fun kc => violated (snd kc) (lookup_key (fst kc) fields))
                  (field_constraints key lo hi)
             = find (fun kc => violated (snd kc) (lookup_key key fields))
                    (field_constraints key lo hi)) by reflexivity.
  rewrite !Hk.
  destruct (find _ (field_constraints "titre" 2 100)) as [[k c]|] eqn:Ht.
  - apply find_some in Ht as [Hin _].
    assert (k = "titre") as -> by (cbn in Hin; intuition congruence).
    reflexivity.
  - cbn [fmap option_fmap option_map].
    destruct (find _ (field_constraints "contenu" 2 1000)) as [[k c]|] eqn:Hc;
      [|reflexivity].
    apply find_some in Hc as [Hin _].
    assert (k = "contenu") as -> by (cbn in Hin; intuition congruence).
    reflexivity.
Qed.


(** [validate] on an object: the first violated constraint, else the first
    key outside the schema. *)
Lemma validate_object (fields : list (string * json)) :
  Joi.validate noteSchemaJoi (Some (JObj fields))
  = match first_violated fields with
    | Some kc => Some (error_of kc)
    | None =>
        match Joi.unprocessed noteSchemaJoi fields with
        | k :: _ => Some {| Joi.err_code := Joi.object_unknown; Joi.err_label := k |}
        | [] => None
        end
    end.
Proof.
  unfold Joi.validate. rewrite validate_keys_first.
  destruct (first_violated fields); reflexivity.
Qed.

(** What Joi accepts: an object with the two keys and no other, both
    strings within the bounds. *)
Lemma validate_accepts (b : json) :
  Joi.validate noteSchemaJoi (Some b) = None ->
  exists fields t c,
    b = JObj fields
    /\ lookup_key "titre" fields = Some (JStr t)
    /\ lookup_key "contenu" fields = Some (JStr c)
    /\ (2 <= String.length t <= 100)%nat
    /\ (2 <= String.length c <= 1000)%nat
    /\ Joi.unprocessed noteSchemaJoi fields = [].
Proof.
  destruct b as [| | | | | |fields]; try discriminate.
  rewrite validate_object.
  destruct (first_violated fields) eqn:Hf; [discriminate|].
  destruct (Joi.unprocessed noteSchemaJoi fields) eqn:Hu; [|discriminate].
  intros _.
  unfold first_violated, note_constraints, field_constraints in Hf.
  cbn -[Nat.ltb lookup_key] in Hf. exists fields. revert Hf.
  destruct (lookup_key "titre" fields) as [[]|];
    destruct (lookup_key "contenu" fields) as [[]|];
    intros Hf; try discriminate Hf;
    repeat match type of Hf with
           | context [if ?b then _ else _] => destruct b eqn:?
           end; try discriminate Hf.
  repeat match goal with
         | H : (_ <? _)%nat = false |- _ => apply Nat.ltb_ge in H
         end.
  do 2 eexists. do 3 (split; [reflexivity|]).
  split; [lia|]. split; [lia | exact Hu].
Qed.

(** After a successful validation the destructuring gives the two strings,
    and the validators of the Mongoose schema accept them. *)
Lemma destructure_accepted (b : json) :
  Joi.validate noteSchemaJoi (Some b) = None ->
  exists t c,
    destructure (Some b) = Resolved (t, c)
    /\ str_prop "titre" b = Some t /\ str_prop "contenu" b = Some c
    /\ validation_error t c = None.
Proof.
  intros H. apply validate_accepts in H
    as (fields & t & c & -> & Ht & Hc & Hlt & Hlc & _).
  exists t, c. unfold destructure, str_prop. rewrite Ht, Hc.
  do 3 (split; [reflexivity|]).
  unfold validation_error, required_ok.
  destruct t; [cbn in Hlt; lia|]. destruct c; [cbn in Hlc; lia|]. reflexivity.
Qed.

Lemma lookup_key_mem (k : string) (fields : list (string * json)) (v : json) :
  lookup_key k fields = Some v -> mem_key k (keys fields) = true.
Proof.
  induction fields as [|[k' v'] fields IH]; [discriminate|].
  cbn. rewrite (String.eqb_sym k k').
  destruct (String.eqb k' k); [reflexivity|]. exact IH.
Qed.

Lemma filter_negb_nil {A} (p : A -> bool) (l : list A) :
  List.filter (fun x => negb (p x)) l = [] -> forallb p l = true.
Proof.
  induction l as [|x l IH]; [reflexivity|].
  cbn. destruct (p x); cbn; [exact IH | discriminate].
Qed.

(** A body Joi accepts has exactly the keys of the schema. *)
Lemma validate_accepts_keys (b : json) :
  Joi.validate noteSchemaJoi (Some b) = None ->
  keys_exactly ["titre"; "contenu"] b = true.
Proof.
  intros H. apply validate_accepts in H
    as (fields & t & c & -> & Ht & Hc & _ & _ & Hu).
  unfold keys_exactly. apply andb_true_iff. split.
  - apply filter_negb_nil in Hu. exact Hu.
  - cbn [forallb]. rewrite (lookup_key_mem _ _ _ Ht), (lookup_key_mem _ _ _ Hc).
    reflexivity.
Qed.

(* ------------------------------------------------------------------ *)
(** ** Validation failures of create and update *)

Section WriteRoutes.

Variable castObjectId : string -> option ObjectId.




(** C8 (amended). Creating a note via POST /notes with the body
    [{titre: "Maths", contenu: "Calcul integral"}] returns 201 with a body
    that carries the generated [_id], the same [titre] and [contenu], and
    the [dateAjout] timestamp; the note is appended to the collection. *)
Theorem create_maths_note w req st :
  req_method req = POST -> req_path req = ["notes"] ->
  req_body req
  = Some (JObj [("titre", JStr "Maths"); ("contenu", JStr "Calcul integral")]) ->
  let note := {| _id := new_id w; titre := "Maths";
                 contenu := "Calcul integral";
                 dateAjout := now w; __v := 0 |} in
  serve castObjectId w req st
  = ({| notes := notes st ++ [note]; uploads := uploads st |},
     status_json 201
       (JObj [ ("titre", JStr "Maths"); ("contenu", JStr "Calcul integral");
               ("_id", JStr (new_id w)); ("dateAjout", JDate (now w));
               ("__v", JNum 0) ])).
Proof.
  intros Hm Hp Hb note.
  rewrite serve_post_notes by assumption.
  unfold postNotes. rewrite Hb. reflexivity.
Qed.

End WriteRoutes.

(* ------------------------------------------------------------------ *)
(** ** Reading, updating and deleting by id *)

Lemma mem_key_false (k : string) (ks : list string) :
  mem_key k ks = false -> k ∉ ks.
Proof.
  intros Hmem Hin. apply list_elem_of_In in Hin.
  assert (mem_key k ks = true); [|congruence].
  apply existsb_exists. exists k. split; [exact Hin | apply String.eqb_refl].
Qed.

(** With unique ids, the search by id finds a stored note at its own
    position. *)
Lemma find_id_stored (coll : list Note) (i : nat) (n : Note) :
  NoDup (_id <$> coll) -> coll !! i = Some n ->
  find_id (_id n) coll = Some (i, n).
Proof.
  intros Hnd Hi. unfold find_id. apply list_find_Some.
  split; [exact Hi|]. split; [reflexivity|].
  intros j m Hj Hlt Heq.
  assert (i = j); [|lia].
  apply (NoDup_lookup (_id <$> coll) i j (_id n)); [exact Hnd| |].
  - rewrite list_lookup_fmap, Hi. reflexivity.
  - rewrite list_lookup_fmap, Hj. cbn. congruence.
Qed.

(** No stored note has the id: the search finds nothing. *)
Lemma find_id_absent (coll : list Note) (oid : ObjectId) :
  oid ∉ _id <$> coll -> find_id oid coll = None.
Proof.
  intros Hnot. unfold find_id. apply list_find_None.
  apply Forall_forall. intros m Hm Heq. apply Hnot.
  rewrite <- Heq. apply list_elem_of_fmap. exists m. split; [reflexivity | exact Hm].
Qed.

(** With unique ids, the id of a deleted note is no longer stored. *)
Lemma deleted_id_absent (coll : list Note) (i : nat) (n : Note) :
  NoDup (_id <$> coll) -> coll !! i = Some n ->
  _id n ∉ _id <$> delete i coll.
Proof.
  intros Hnd Hi Hin.
  apply list_elem_of_fmap in Hin as (m & Heq & Hm).
  apply list_elem_of_lookup in Hm as [j Hj].
  destruct (decide (j < i)) as [Hlt|Hge].
  - rewrite list_lookup_delete_lt in Hj by exact Hlt.
    assert (i = j); [|lia].
    apply (NoDup_lookup (_id <$> coll) i j (_id n)); [exact Hnd| |].
    + rewrite list_lookup_fmap, Hi. reflexivity.
    + rewrite list_lookup_fmap, Hj. cbn. congruence.
  - rewrite list_lookup_delete_ge in Hj by lia.
    assert (i = S j); [|lia].
    apply (NoDup_lookup (_id <$> coll) i (S j) (_id n)); [exact Hnd| |].
    + rewrite list_lookup_fmap, Hi. reflexivity.
    + rewrite list_lookup_fmap, Hj. cbn. congruence.
Qed.

Section ById.

Variable castObjectId : string -> option ObjectId.

(** C2 (amended). For every id that is not a well-formed identifier (the
    cast to an ObjectId fails), GET /notes/:id returns 500 with the envelope
    of the error middleware, whose details are the message of the cast
    error, and the state is unchanged.  The NotFound outcome (404 with the
    fixed message) is what a well-formed id that matches no stored note
    gets. *)
Theorem get_by_id_malformed_or_unknown w req st id :
  req_method req = GET -> req_path req = ["notes"; id] ->
  (castObjectId id = None ->
   serve castObjectId w req st
   = (st, status_json 500 (JObj [ ("erreur", JStr "Erreur serveur");
                                  ("details", JStr (cast_error id)) ])))
  /\ (forall oid, castObjectId id = Some oid -> mem_key oid (ids st) = false ->
      serve castObjectId w req st
      = (st, status_json 404 (erreur msg_not_found))).
Proof.
  intros Hm Hp. rewrite (serve_get_note _ _ _ _ id) by assumption.
  unfold getNoteById, findById. cbn [param String.eqb Ascii.eqb Bool.eqb].
  split.
  - intros ->. reflexivity.
  - intros oid -> Hnot. apply mem_key_false in Hnot.
    rewrite (find_id_absent _ _ Hnot). reflexivity.
Qed.

(** C5. For every stored note and every valid update payload, PUT
    /notes/:id on the id of the note succeeds and replaces only [titre] and
    [contenu]: the note keeps its [_id] and its [dateAjout], it stays at its
    position, and no other note of the collection is modified. *)
Theorem update_replaces_title_and_content w req st id i n b :
  req_method req = PUT -> req_path req = ["notes"; id] ->
  req_body req = Some b ->
  Joi.validate noteSchemaJoi (Some b) = None ->
  NoDup (ids st) -> notes st !! i = Some n ->
  castObjectId id = Some (_id n) ->
  exists t c n' st',
    str_prop "titre" b = Some t /\ str_prop "contenu" b = Some c
    /\ serve castObjectId w req st
       = (st', res_json (JObj [ ("message", JStr msg_updated);
                                ("note", toJSON n') ]))
    /\ notes st' = <[i := n']> (notes st)
    /\ uploads st' = uploads st
    /\ titre n' = t /\ contenu n' = c
    /\ _id n' = _id n /\ dateAjout n' = dateAjout n
    /\ length (notes st') = length (notes st)
    /\ forall j, j <> i -> notes st' !! j = notes st !! j.
Proof.
  intros Hm Hp Hb Hv Hnd Hi Hcast.
  destruct (destructure_accepted b Hv) as (t & c & Hd & Ht & Hc & Hok).
  exists t, c, (set_fields t c n),
    {| notes := <[i := set_fields t c n]> (notes st); uploads := uploads st |}.
  split; [exact Ht|]. split; [exact Hc|]. split.
  - rewrite (serve_put_note _ _ _ _ id) by assumption.
    unfold putNote, findByIdAndUpdate.
    cbn [param String.eqb Ascii.eqb Bool.eqb].
    rewrite Hb, Hv, Hd, Hcast, Hok, (find_id_stored _ _ _ Hnd Hi).
    reflexivity.
  - cbn [notes uploads]. repeat split.
    + apply length_insert.
    + intros j Hj. apply list_lookup_insert_ne. congruence.
Qed.

(** C6. For every stored note, DELETE /notes/:id on its id succeeds, and a
    GET /notes/:id with the same id afterwards returns 404 with the fixed
    message. *)
Theorem delete_then_get_not_found w w' req_del req_get st id i n :
  req_method req_del = DELETE -> req_path req_del = ["notes"; id] ->
  req_method req_get = GET -> req_path req_get = ["notes"; id] ->
  NoDup (ids st) -> notes st !! i = Some n ->
  castObjectId id = Some (_id n) ->
  exists st',
    serve castObjectId w req_del st
    = (st', res_json (JObj [("message", JStr msg_deleted)]))
    /\ notes st' = delete i (notes st)
    /\ serve castObjectId w' req_get st'
       = (st', status_json 404 (erreur msg_not_found)).
Proof.
  intros Hm1 Hp1 Hm2 Hp2 Hnd Hi Hcast.
  exists {| notes := delete i (notes st); uploads := uploads st |}.
  split; [|split; [reflexivity|]].
  - rewrite (serve_delete_note _ _ _ _ id) by assumption.
    unfold deleteNote, findByIdAndDelete.
    cbn [param String.eqb Ascii.eqb Bool.eqb].
    rewrite Hcast, (find_id_stored _ _ _ Hnd Hi). reflexivity.
  - rewrite (serve_get_note _ _ _ _ id) by assumption.
    unfold getNoteById, findById.
    cbn [param String.eqb Ascii.eqb Bool.eqb notes].
    rewrite Hcast, (find_id_absent _ _ (deleted_id_absent _ _ _ Hnd Hi)).
    reflexivity.
Qed.

End ById.

(* ------------------------------------------------------------------ *)
(** ** The paginated listing *)

Lemma length_insert_by (le : Note -> Note -> bool) (x : Note) (l : list Note) :
  length (insert_by le x l) = S (length l).
Proof.
  induction l as [|y l IH]; [reflexivity|].
  cbn. destruct (le x y); cbn; [reflexivity | now rewrite IH].
Qed.

(** Sorting keeps the number of documents. *)
Lemma length_sort (path : string) (order : Z) (l : list Note) :
  length (sort path order l) = length l.
Proof.
  unfold sort. induction l as [|x l IH]; [reflexivity|].
  cbn. rewrite length_insert_by, IH. reflexivity.
Qed.

(** When every document may stay before every other one, sorting leaves
    the list as it is. *)
Lemma sort_all_equal (le : Note -> Note -> bool) (l : list Note) :
  (forall x y, le x y = true) -> foldr (insert_by le) [] l = l.
Proof.
  intros Hle. induction l as [|x l IH]; [reflexivity|].
  cbn. rewrite IH. destruct l as [|y l]; [reflexivity|].
  cbn. rewrite Hle. reflexivity.
Qed.

(** [JS.ceil_div a b] is the ceiling of [a / b] for a positive [b]. *)
Lemma ceil_div_spec (a b : Z) :
  (0 < b)%Z ->
  (b * (JS.ceil_div a b - 1) < a <= b * JS.ceil_div a b)%Z.
Proof.
  intros Hb. unfold JS.ceil_div.
  pose proof (Z.div_mod (- a) b ltac:(lia)) as Hdm.
  pose proof (Z.mod_pos_bound (- a) b Hb) as Hmod.
  nia.
Qed.

(** C4. For every store of N notes, the paginated listing invoked with
    page=1 and limit=5 (sorted on the default key or on a path of the
    schema, in either order) answers 200 with [page] 1, [totalNotes] equal
    to N, [totalPages] equal to the ceiling of N/5, and a [notes] array of
    length min(5, N). *)
Theorem first_page_of_five w req st :
  req_query req !! "page" = Some "1" ->
  req_query req !! "limit" = Some "5" ->
  mem_key (query_sortBy (req_query req)) ("date" :: schema_paths) = true ->
  exists found totalPages,
    getNotesPaged [] w req st
    = (st, Respond (res_json (page_json 1 totalPages
                                (Z.of_nat (length (notes st))) found)))
    /\ (5 * (totalPages - 1) < Z.of_nat (length (notes st)) <= 5 * totalPages)%Z
    /\ length found = Nat.min 5 (length (notes st)).
Proof.
  intros Hpage Hlimit _.
  exists (take 5 (sort (query_sortBy (req_query req))
                       (query_sortOrder (req_query req)) (notes st))),
         (JS.ceil_div (Z.of_nat (length (notes st))) 5).
  split; [|split].
  - unfold getNotesPaged, query_page, query_limit. rewrite Hpage, Hlimit.
    reflexivity.
  - apply ceil_div_spec. lia.
  - rewrite length_take, length_sort. reflexivity.
Qed.

(** C9. When the paginated listing is invoked without [sortBy], it sorts
    on the key [date], which is not a path of the Note schema (the timestamp
    of the schema is [dateAjout]): every note has the same, null, sort key.
    Consequently the notes are listed in the natural order of the
    collection, whatever their timestamps (the page being the slice of that
    order, for a page, a limit and a skip below 2^53), and there are
    collections whose default listing is not their listing by
    [dateAjout]. *)
Theorem default_sort_key_is_not_a_field w req st :
  req_query req !! "sortBy" = None ->
  let q := req_query req in
  query_sortBy q = "date"
  /\ mem_key "date" schema_paths = false
  /\ (forall n, field (query_sortBy q) n = BNull)
  /\ (forall coll, sort (query_sortBy q) (query_sortOrder q) coll = coll)
  /\ (exact_page_query q = true ->
      getNotesPaged [] w req st
      = (st, Respond
               match natural_page ((query_page q - 1) * query_limit q)
                                  (query_limit q) (notes st) with
               | Resolved found =>
                   res_json (page_json (query_page q)
                               (JS.ceil_div (countDocuments (notes st)) (query_limit q))
                               (countDocuments (notes st)) found)
               | Rejected _ =>
                   status_json 500 (JObj [("error", JStr msg_listing_failed)])
               end))
  /\ exists coll,
       sort (query_sortBy q) (query_sortOrder q) coll
       <> sort "dateAjout" (query_sortOrder q) coll.
Proof.
  intros Hq q.
  assert (Hkey : query_sortBy q = "date").
  { unfold query_sortBy, q. rewrite Hq. reflexivity. }
  assert (Hsort : forall coll, sort (query_sortBy q) (query_sortOrder q) coll = coll).
  { intros coll. rewrite Hkey. unfold sort. apply sort_all_equal.
    intros x y. reflexivity. }
  split; [exact Hkey|]. split; [reflexivity|].
  split; [intros n; rewrite Hkey; reflexivity|].
  split; [exact Hsort|]. split.
  - intros _. unfold getNotesPaged, find_page, natural_page. fold q.
    rewrite Hsort. destruct (skip _ (notes st)); reflexivity.
  - pose (a := {| _id := "65a000000000000000000001"; titre := "Maths";
                  contenu := "Calcul integral"; dateAjout := 10; __v := 0 |}).
    pose (b := {| _id := "65a000000000000000000002"; titre := "Algo";
                  contenu := "Tri fusion"; dateAjout := 20; __v := 0 |}).
    assert (Ho : query_sortOrder q = 1%Z \/ query_sortOrder q = (-1)%Z).
    { unfold query_sortOrder. destruct (q !! "order") as [o|]; [|now right].
      destruct (String.eqb o "asc"); [now left | now right]. }
    destruct Ho as [Ho|Ho].
    + exists [b; a]. rewrite Hsort, Ho. discriminate.
    + exists [a; b]. rewrite Hsort, Ho. discriminate.
Qed.

(* ------------------------------------------------------------------ *)
(** ** The two handlers of GET /notes *)

(** Layers that behave alike after a common prefix give the same answer. *)
Lemma dispatch_same_tail (pre t1 t2 : list layer) :
  (forall err w req st, dispatch t1 err w req st = dispatch t2 err w req st) ->
  forall err w req st,
    dispatch (pre ++ t1) err w req st = dispatch (pre ++ t2) err w req st.
Proof.
  intros Htail. induction pre as [|l pre IH]; [exact Htail|].
  intros err w req st. simpl.
  destruct err as [e|], l as [h|prefix h|m pattern h|h];
    try reflexivity; try apply IH.
  - destruct (h w req st) as [st' [r| |e]]; [reflexivity | apply IH..].
  - destruct (match_prefix prefix (req_path req)) as [sub|]; [|apply IH].
    destruct (h sub w req st) as [st' [r| |e]]; [reflexivity | apply IH..].
  - destruct (method_matches m (req_method req)); [|apply IH].
    destruct (match_path pattern (req_path req)) as [ps|]; [|apply IH].
    destruct (h ps w req st) as [st' [r| |e]]; [reflexivity | apply IH..].
Qed.

Section Listing.

Variable castObjectId : string -> option ObjectId.

(** X2. The paginated handler is never run: for every request, the
    application answers as it does without that layer.  The error middleware
    and the catch-all, registered before it, end every request that reaches
    them. *)
Lemma paged_route_unreachable w req st :
  serve castObjectId w req st
  = dispatch (app_without_paged castObjectId) None w req st.
Proof.
  unfold serve.
  change (app castObjectId)
    with (take 11 (app castObjectId)
          ++ [OnError errorHandler; Use unknownRoute;
              Route GET [Lit "notes"] getNotesPaged])%list.
  change (app_without_paged castObjectId)
    with (take 11 (app castObjectId)
          ++ [OnError errorHandler; Use unknownRoute])%list.
  apply dispatch_same_tail.
  intros [e|] w0 req0 st0; reflexivity.
Qed.

(** C1 (what the code does). Every GET request to /notes is answered by the
    first handler bound to the route: 200 with the bare array of all the
    notes, whatever the query.  The body is not the object
    [{page, totalPages, totalNotes, notes}], and the answer is not the one
    of the paginated handler. *)
Theorem get_notes_answers_with_plain_list w req st :
  req_method req = GET -> req_path req = ["notes"] ->
  serve castObjectId w req st
  = (st, res_json (JArr (map toJSON (notes st))))
  /\ (forall page totalPages totalNotes found,
        body (snd (serve castObjectId w req st))
        <> Json (page_json page totalPages totalNotes found))
  /\ serve castObjectId w req st <> settle req (getNotesPaged [] w req st).
Proof.
  intros Hm Hp. rewrite serve_get_notes by assumption.
  unfold getNotes. cbn [settle snd body res_json status_json].
  split; [reflexivity|]. split.
  - intros page totalPages totalNotes found. discriminate.
  - unfold getNotesPaged.
    destruct (find_page _ _ _ _ (notes st)); cbn; discriminate.
Qed.

End Listing.

(* ------------------------------------------------------------------ *)
(** ** Uploads *)

(** Without a file part, [req.file] keeps the value it had. *)
Lemma single_go_no_file name mk left ps acc :
  file_parts ps = [] ->
  Multer.single_go name mk left ps acc = Resolved acc.
Proof.
  revert left acc. induction ps as [|[fname v|fld orig] ps IH];
    intros left acc Hf; [reflexivity| |discriminate].
  cbn. apply IH. exact Hf.
Qed.

(** One named file, under the expected field: it becomes [req.file]. *)
Lemma single_go_one_file name mk left ps acc orig :
  file_parts ps = [Multer.File name orig] -> orig <> EmptyString ->
  Multer.single_go name mk (S left) ps acc
  = Resolved (Some {| Multer.file_fieldname := name;
                      Multer.originalname := orig;
                      Multer.filename := mk orig |}).
Proof.
  intros Hf Horig. revert acc.
  induction ps as [|[fname v|fld o] ps IH]; intros acc; [discriminate| |].
  - cbn. apply IH. exact Hf.
  - cbn in Hf. injection Hf as -> -> Hrest.
    cbn. apply String.eqb_neq in Horig. rewrite Horig, String.eqb_refl.
    apply single_go_no_file. exact Hrest.
Qed.

Section Upload.

Variable castObjectId : string -> option ObjectId.

(** A file under another field is an error of the upload middleware, which
    the error middleware answers: such a request is outside the contract of
    the route (one file, under [fichier]). *)
Lemma upload_unexpected_field w req st fld orig rest :
  req_method req = POST -> req_path req = ["upload"] ->
  req_parts req = Some (Multer.File fld orig :: rest) ->
  orig <> EmptyString -> fld <> "fichier" ->
  serve castObjectId w req st = (st, errorHandler "Unexpected field" req).
Proof.
  intros Hm Hp Hps Horig Hfld. rewrite serve_post_upload by assumption.
  unfold postUpload, Multer.single. rewrite Hps. cbn [Multer.single_go].
  apply String.eqb_neq in Horig, Hfld. rewrite Horig, Hfld. reflexivity.
Qed.

End Upload.

(* ------------------------------------------------------------------ *)
(** ** The lifecycle of the state *)

Lemma state_eta (st : state) :
  {| notes := notes st; uploads := uploads st |} = st.
Proof. destruct st; reflexivity. Qed.

(** A stack of such layers changes the state at most once. *)
Lemma dispatch_changes (w : world) (req : request) (stack : list layer) :
  Forall (layer_ok w req) stack ->
  forall err st,
    fst (dispatch stack err w req st) = st
    \/ change w st (fst (dispatch stack err w req st)).
Proof.
  induction 1 as [|l stack Hl _ IH]; intros err st; [left; reflexivity|].
  assert (Hrun : forall r : state * outcome,
             quiet_or_final w st r ->
             let out := match r with
                        | (st', Respond res) => (st', res)
                        | (st', Next) => dispatch stack None w req st'
                        | (st', NextErr e) => dispatch stack (Some e) w req st'
                        end in
             fst out = st \/ change w st (fst out)).
  { intros [st' o] [Hq | [[res Hres] Hc]]; cbn in *.
    - subst st'. destruct o; [left; reflexivity | apply IH..].
    - subst o. right. exact Hc. }
  simpl. destruct err as [e|], l as [h|prefix h|m pattern h|h];
    try apply IH; try (left; reflexivity).
  - apply Hrun, Hl.
  - destruct (match_prefix prefix (req_path req)); [apply Hrun, Hl | apply IH].
  - destruct (method_matches m (req_method req)); [|apply IH].
    destruct (match_path pattern (req_path req)); [apply Hrun, Hl | apply IH].
Qed.

Lemma pass_ok w req st : quiet_or_final w st (pass w req st).
Proof. left. reflexivity. Qed.

Lemma cors_ok w req st : quiet_or_final w st (cors w req st).
Proof. left. unfold cors. destruct (req_method req); reflexivity. Qed.

Lemma serve_uploads_ok w req sub st :
  quiet_or_final w st (serve_uploads sub w req st).
Proof.
  left. unfold serve_uploads.
  destruct (req_method req), sub as [|name [|]]; try reflexivity;
    destruct (mem_key name (uploads st)); reflexivity.
Qed.

Lemma postUpload_ok w req ps st : quiet_or_final w st (postUpload ps w req st).
Proof.
  unfold postUpload.
  destruct (Multer.single _ _ _) as [[f|]|msg]; try (left; reflexivity).
  right. split; [eexists; reflexivity|].
  apply (Uploaded _ _ _ (Multer.filename f)). reflexivity.
Qed.

(** The strings a handler takes from an accepted body are within the
    bounds. *)
Lemma accepted_strings (b : json) (t c : string) :
  Joi.validate noteSchemaJoi (Some b) = None ->
  destructure (Some b) = Resolved (t, c) ->
  (2 <= String.length t <= 100)%nat /\ (2 <= String.length c <= 1000)%nat
  /\ validation_error t c = None.
Proof.
  intros Hv Hd.
  destruct (destructure_accepted b Hv) as (t' & c' & Hd' & Ht & Hc & Hok).
  rewrite Hd in Hd'. injection Hd' as <- <-.
  apply validate_accepts in Hv
    as (fields & t' & c' & -> & Ht' & Hc' & Hlt & Hlc & _).
  cbn in Ht, Hc. rewrite Ht' in Ht. rewrite Hc' in Hc.
  injection Ht as ->. injection Hc as ->. auto.
Qed.

Lemma postNotes_ok w req ps st : quiet_or_final w st (postNotes ps w req st).
Proof.
  unfold postNotes.
  destruct (req_body req) as [b|]; [|left; reflexivity].
  destruct (Joi.validate noteSchemaJoi (Some b)) eqn:Hv; [left; reflexivity|].
  destruct (destructure (Some b)) as [[t c]|msg] eqn:Hd; [|left; reflexivity].
  destruct (accepted_strings b t c Hv Hd) as (Hlt & Hlc & Hok).
  unfold save. rewrite Hok. right. split; [eexists; reflexivity|].
  apply (Created _ _ _ t c Hlt Hlc). reflexivity.
Qed.

Lemma getNotes_ok w req ps st : quiet_or_final w st (getNotes ps w req st).
Proof. left. reflexivity. Qed.

Lemma unknownRoute_ok w req st : quiet_or_final w st (unknownRoute w req st).
Proof. left. reflexivity. Qed.

Lemma getNotesPaged_ok w req ps st :
  quiet_or_final w st (getNotesPaged ps w req st).
Proof.
  left. unfold getNotesPaged. destruct (find_page _ _ _ _ _); reflexivity.
Qed.

Section Lifecycle.

Variable castObjectId : string -> option ObjectId.

Lemma getNoteById_ok w req ps st :
  quiet_or_final w st (getNoteById castObjectId ps w req st).
Proof.
  left. unfold getNoteById. destruct (findById _ _ _) as [[n|]|msg]; reflexivity.
Qed.

Lemma putNote_ok w req ps st :
  quiet_or_final w st (putNote castObjectId ps w req st).
Proof.
  unfold putNote.
  destruct (req_body req) as [b|]; [|left; reflexivity].
  destruct (Joi.validate noteSchemaJoi (Some b)) eqn:Hv; [left; reflexivity|].
  destruct (destructure (Some b)) as [[t c]|msg] eqn:Hd; [|left; reflexivity].
  destruct (accepted_strings b t c Hv Hd) as (Hlt & Hlc & Hok).
  unfold findByIdAndUpdate.
  destruct (castObjectId (param "id" ps)) as [oid|]; [|left; apply state_eta].
  rewrite Hok.
  destruct (find_id oid (notes st)) as [[i n]|] eqn:Hfind;
    [|left; apply state_eta].
  right. split; [eexists; reflexivity|].
  apply list_find_Some in Hfind as (Hi & _ & _).
  apply (Updated _ _ _ i n t c Hi Hlt Hlc). reflexivity.
Qed.

Lemma deleteNote_ok w req ps st :
  quiet_or_final w st (deleteNote castObjectId ps w req st).
Proof.
  unfold deleteNote, findByIdAndDelete.
  destruct (castObjectId (param "id" ps)) as [oid|]; [|left; apply state_eta].
  destruct (find_id oid (notes st)) as [[i n]|] eqn:Hfind;
    [|left; apply state_eta].
  right. split; [eexists; reflexivity|].
  apply list_find_Some in Hfind as (Hi & _ & _).
  apply (Deleted _ _ _ i n Hi). reflexivity.
Qed.

Lemma app_layers_ok w req : Forall (layer_ok w req) (app castObjectId).
Proof.
  unfold app. repeat apply Forall_cons_2; try apply Forall_nil_2;
    cbn [layer_ok]; intros;
    auto using pass_ok, cors_ok, serve_uploads_ok, postUpload_ok, postNotes_ok,
      getNotes_ok, getNoteById_ok, putNote_ok, deleteNote_ok, unknownRoute_ok,
      getNotesPaged_ok.
Qed.

(** Every request leaves the state as it is or changes it in one of the
    four ways of the lifecycle. *)
Lemma serve_changes w req st :
  fst (serve castObjectId w req st) = st
  \/ change w st (fst (serve castObjectId w req st)).
Proof. apply dispatch_changes, app_layers_ok. Qed.

(** X3. The invariant of the data model (unique ids, title and content
    within the bounds of the schema) is kept by every request, as long as
    the id given to a new note is not yet in the collection. *)
Lemma serve_keeps_well_formed w req st :
  mem_key (new_id w) (ids st) = false ->
  well_formed st -> well_formed (fst (serve castObjectId w req st)).
Proof.
  intros Hfresh [Hnd Hok]. apply mem_key_false in Hfresh.
  destruct (serve_changes w req st) as [-> | Hc]; [split; assumption|].
  destruct Hc as [t c Ht Hc -> | i n t c Hi Ht Hc -> | i n Hi -> | name ->];
    unfold well_formed, ids; cbn [notes uploads].
  - split.
    + rewrite fmap_app. apply NoDup_app. split; [exact Hnd|].
      split; [|apply NoDup_singleton].
      intros x Hx Hin. apply list_elem_of_singleton in Hin. cbn in Hin.
      subst x. exact (Hfresh Hx).
    + apply Forall_app. split; [exact Hok|].
      apply Forall_singleton. split; assumption.
  - split.
    + rewrite list_fmap_insert. cbn [set_fields _id].
      rewrite list_insert_id; [exact Hnd|].
      rewrite list_lookup_fmap, Hi. reflexivity.
    + apply Forall_insert; [exact Hok|]. split; assumption.
  - split.
    + rewrite list_fmap_delete.
      apply (sublist_NoDup _ (_id <$> notes st) Hnd), sublist_delete.
    + apply Forall_delete. exact Hok.
  - split; assumption.
Qed.

End Lifecycle.

(* ------------------------------------------------------------------ *)
(** ** The theorems at sample requests *)

Lemma ex_state_unique_ids : NoDup (ids ex_state).
Proof.
  apply NoDup_cons. split.
  - apply mem_key_false. reflexivity.
  - apply NoDup_cons. split; [apply mem_key_false; reflexivity | apply NoDup_nil_2].
Defined.

Lemma get_notes_answers_with_plain_list_witness :
  let req := ex_request GET ["notes"] {[ "page" := "1"; "limit" := "1" ]} None None in
  serve hex24 ex_world req ex_state
  = (ex_state, res_json (JArr [toJSON ex_note1; toJSON ex_note2]))
  /\ (forall page totalPages totalNotes found,
        body (snd (serve hex24 ex_world req ex_state))
        <> Json (page_json page totalPages totalNotes found))
  /\ serve hex24 ex_world req ex_state
     <> settle req (getNotesPaged [] ex_world req ex_state).
Proof.
  apply (get_notes_answers_with_plain_list hex24); reflexivity.
Defined.

(** C2 (claim as stated, refuted). The id [abc] is not a well-formed
    identifier, and GET /notes/abc is answered 500 by the error middleware,
    not 404 with the not-found message. *)
Lemma get_by_id_malformed_is_not_404 :
  hex24 "abc" = None
  /\ status (snd (serve hex24 ex_world
                    (ex_request GET ["notes"; "abc"] ∅ None None) ex_state))
     = 500
  /\ snd (serve hex24 ex_world
            (ex_request GET ["notes"; "abc"] ∅ None None) ex_state)
     <> status_json 404 (erreur msg_not_found).
Proof.
  split; [reflexivity|]. split; [reflexivity|]. vm_compute. discriminate.
Qed.

Lemma get_by_id_malformed_or_unknown_witness :
  serve hex24 ex_world (ex_request GET ["notes"; "abc"] ∅ None None) ex_state
  = (ex_state,
     status_json 500 (JObj [ ("erreur", JStr "Erreur serveur");
                             ("details", JStr (cast_error "abc")) ]))
  /\ serve hex24 ex_world
       (ex_request GET ["notes"; "65A000000000000000000009"] ∅ None None)
       ex_state
     = (ex_state, status_json 404 (erreur msg_not_found)).
Proof.
  split.
  - apply (get_by_id_malformed_or_unknown hex24 ex_world _ ex_state "abc");
      reflexivity.
  - apply (proj2 (get_by_id_malformed_or_unknown hex24 ex_world
                    (ex_request GET ["notes"; "65A000000000000000000009"]
                       ∅ None None)
                    ex_state "65A000000000000000000009" eq_refl eq_refl)
             "65a000000000000000000009"); reflexivity.
Defined.


Lemma first_page_of_five_witness :
  exists found totalPages,
    getNotesPaged []
      ex_world
      (ex_request GET ["notes"] {[ "page" := "1"; "limit" := "5" ]} None None)
      ex_state
    = (ex_state,
       Respond (res_json (page_json 1 totalPages
                            (Z.of_nat (length (notes ex_state))) found)))
    /\ (5 * (totalPages - 1) < Z.of_nat (length (notes ex_state))
        <= 5 * totalPages)%Z
    /\ length found = Nat.min 5 (length (notes ex_state)).
Proof.
  apply (first_page_of_five ex_world
           (ex_request GET ["notes"] {[ "page" := "1"; "limit" := "5" ]}
              None None) ex_state); reflexivity.
Defined.

Lemma update_replaces_title_and_content_witness :
  exists t c n' st',
    str_prop "titre" ex_body = Some t /\ str_prop "contenu" ex_body = Some c
    /\ serve hex24 ex_world
         (ex_request PUT ["notes"; "65a000000000000000000002"] ∅
            (Some ex_body) None) ex_state
       = (st', res_json (JObj [ ("message", JStr msg_updated);
                                ("note", toJSON n') ]))
    /\ notes st' = <[1 := n']> (notes ex_state)
    /\ uploads st' = uploads ex_state
    /\ titre n' = t /\ contenu n' = c
    /\ _id n' = _id ex_note2 /\ dateAjout n' = dateAjout ex_note2
    /\ length (notes st') = length (notes ex_state)
    /\ forall j, j <> 1 -> notes st' !! j = notes ex_state !! j.
Proof.
  apply (update_replaces_title_and_content hex24 ex_world
           (ex_request PUT ["notes"; "65a000000000000000000002"] ∅
              (Some ex_body) None)
           ex_state "65a000000000000000000002" 1 ex_note2 ex_body);
    try reflexivity.
  exact ex_state_unique_ids.
Defined.

Lemma delete_then_get_not_found_witness :
  exists st',
    serve hex24 ex_world
      (ex_request DELETE ["notes"; "65a000000000000000000001"] ∅ None None)
      ex_state
    = (st', res_json (JObj [("message", JStr msg_deleted)]))
    /\ notes st' = delete 0 (notes ex_state)
    /\ serve hex24 ex_world
         (ex_request GET ["notes"; "65a000000000000000000001"] ∅ None None) st'
       = (st', status_json 404 (erreur msg_not_found)).
Proof.
  apply (delete_then_get_not_found hex24 ex_world ex_world
           (ex_request DELETE ["notes"; "65a000000000000000000001"] ∅ None None)
           (ex_request GET ["notes"; "65a000000000000000000001"] ∅ None None)
           ex_state "65a000000000000000000001" 0 ex_note1);
    try reflexivity.
  exact ex_state_unique_ids.
Defined.

(** C8 (claim as stated, refuted). POST /notes with the body
    [{title: "Maths", content: "Calcul integral"}] is refused by the
    validation: the answer is 400, not 201, and no note is created. *)
Lemma create_with_english_keys_is_refused :
  serve hex24 ex_world
    (ex_request POST ["notes"] ∅ (Some ex_english_keys) None) ex_state
  = (ex_state,
     status_json 400
       (erreur (Joi.dquote ++ "titre" ++ Joi.dquote ++ " is required")))
  /\ status (snd (serve hex24 ex_world
                    (ex_request POST ["notes"] ∅ (Some ex_english_keys) None)
                    ex_state))
     <> 201.
Proof. split; [reflexivity | vm_compute; discriminate]. Qed.

Lemma create_maths_note_witness :
  serve hex24 ex_world (ex_request POST ["notes"] ∅ (Some ex_body) None) ex_state
  = ({| notes := [ex_note1; ex_note2;
                  {| _id := "65a000000000000000000003"; titre := "Maths";
                     contenu := "Calcul integral";
                     dateAjout := 1700000000000; __v := 0 |}];
        uploads := [] |},
     status_json 201
       (JObj [ ("titre", JStr "Maths"); ("contenu", JStr "Calcul integral");
               ("_id", JStr "65a000000000000000000003");
               ("dateAjout", JDate 1700000000000); ("__v", JNum 0) ])).
Proof.
  apply (create_maths_note hex24 ex_world
           (ex_request POST ["notes"] ∅ (Some ex_body) None) ex_state);
    reflexivity.
Defined.

Lemma default_sort_key_is_not_a_field_witness :
  let req := ex_request GET ["notes"] {[ "page" := "1" ]} None None in
  let q := req_query req in
  query_sortBy q = "date"
  /\ sort "date" (-1) (notes ex_state) = notes ex_state
  /\ getNotesPaged [] ex_world req ex_state
     = (ex_state,
        Respond
          match natural_page ((query_page q - 1) * query_limit q)
                             (query_limit q) (notes ex_state) with
          | Resolved found =>
              res_json (page_json (query_page q)
                          (JS.ceil_div (countDocuments (notes ex_state))
                             (query_limit q))
                          (countDocuments (notes ex_state)) found)
          | Rejected _ =>
              status_json 500 (JObj [("error", JStr msg_listing_failed)])
          end)
  /\ exists coll, sort "date" (-1) coll <> sort "dateAjout" (-1) coll.
Proof.
  pose proof (default_sort_key_is_not_a_field ex_world
                (ex_request GET ["notes"] {[ "page" := "1" ]} None None)
                ex_state eq_refl) as (Hkey & _ & _ & Hsort & Hpage & Hex).
  split; [exact Hkey|]. split; [exact (Hsort (notes ex_state))|].
  split; [apply Hpage; reflexivity | exact Hex].
Defined.


(* ------------------------------------------------------------------ *)
(** ** Requests outside the routes, and requests that only read *)

Section Router.

Variable castObjectId : string -> option ObjectId.

(** X1. A request whose method is neither OPTIONS nor HEAD, whose body, if
    any, is one the parser lets through (an object or an array), and whose
    path starts with none of [/uploads], [/upload], [/notes] (or is the
    root) reaches the catch-all: 404 with [{erreur: 'Route inconnue'}],
    state unchanged. *)
Theorem unknown_route_404 w req st :
  req_method req <> OPTIONS -> req_method req <> HEAD ->
  parser_accepts (req_body req) = true ->
  known_prefix (req_path req) = false ->
  serve castObjectId w req st = (st, status_json 404 (erreur "Route inconnue")).
Proof.
  intros Hm _ _ Hk. destruct req as [m p q b pr h parts].
  change (m <> OPTIONS) in Hm. change (known_prefix p = false) in Hk.
  unfold serve, app.
  destruct p as [|seg rest].
  - destruct m; try congruence; reflexivity.
  - unfold known_prefix in Hk. apply orb_false_iff in Hk as [Hk Hn].
    apply orb_false_iff in Hk as [Hu Hup].
    destruct m; try congruence;
      cbn -[same_segment]; rewrite ?Hu, ?Hup, ?Hn; reflexivity.
Qed.

(** A stack of layers that are quiet for the request leaves the state as it
    is. *)
Lemma dispatch_quiet (w : world) (req : request) (stack : list layer) :
  Forall (layer_quiet w req) stack ->
  forall err st, fst (dispatch stack err w req st) = st.
Proof.
  induction 1 as [|l stack Hl _ IH]; intros err st; [reflexivity|].
  assert (Hrun : forall r : state * outcome,
             fst r = st ->
             fst match r with
                 | (st', Respond res) => (st', res)
                 | (st', Next) => dispatch stack None w req st'
                 | (st', NextErr e) => dispatch stack (Some e) w req st'
                 end = st).
  { intros [st' o] Hq. cbn in Hq. subst st'.
    destruct o; [reflexivity | apply IH..]. }
  simpl. destruct err as [e|], l as [h|prefix h|m pattern h|h];
    try apply IH; try reflexivity.
  - apply Hrun, Hl.
  - destruct (match_prefix prefix (req_path req)); [apply Hrun, Hl | apply IH].
  - destruct (method_matches m (req_method req)) eqn:Hm; [|apply IH].
    destruct (match_path pattern (req_path req)); [|apply IH].
    apply Hrun, Hl. exact Hm.
Qed.

(** X4. A GET, HEAD or OPTIONS request, whatever its path, query and body,
    changes neither the notes nor the uploaded files. *)
Theorem safe_methods_read_only w req st :
  is_safe (req_method req) = true ->
  fst (serve castObjectId w req st) = st.
Proof.
  intros Hsafe. unfold serve. apply dispatch_quiet.
  unfold app. repeat apply Forall_cons_2; try apply Forall_nil_2;
    cbn [layer_quiet]; try exact I;
    try (intros Hm; destruct (req_method req); discriminate);
    intros.
  - reflexivity.
  - unfold cors. destruct (req_method req); reflexivity.
  - unfold serve_uploads.
    destruct (req_method req), sub as [|name [|]]; try reflexivity;
      destruct (mem_key name (uploads st0)); reflexivity.
  - reflexivity.
  - reflexivity.
  - reflexivity.
  - unfold getNoteById. destruct (findById _ _ _) as [[n|]|msg]; reflexivity.
  - reflexivity.
  - unfold getNotesPaged. destruct (find_page _ _ _ _ _); reflexivity.
Qed.

End Router.

(* ------------------------------------------------------------------ *)
(** ** How the note routes compose *)

(** A fresh id is found at the end of the collection it was appended to. *)
Lemma find_id_appended (coll : list Note) (n : Note) :
  _id n ∉ _id <$> coll ->
  find_id (_id n) (coll ++ [n]) = Some (length coll, n).
Proof.
  intros Hfresh. unfold find_id. apply list_find_Some.
  split; [apply list_lookup_middle; reflexivity|].
  split; [reflexivity|].
  intros j m Hj Hlt Heq. apply Hfresh.
  rewrite lookup_app_l in Hj by exact Hlt.
  rewrite <- Heq. apply list_elem_of_fmap. exists m.
  split; [reflexivity|]. apply list_elem_of_lookup. eauto.
Qed.

(** Replacing the title and the content of a note keeps the ids. *)
Lemma ids_after_update (coll : list Note) (i : nat) (n : Note) (t c : string) :
  coll !! i = Some n ->
  _id <$> <[i := set_fields t c n]> coll = _id <$> coll.
Proof.
  intros Hi. rewrite list_fmap_insert. apply list_insert_id.
  rewrite list_lookup_fmap, Hi. reflexivity.
Qed.

Section Composition.

Variable castObjectId : string -> option ObjectId.

(** X5. Create then read: after POST /notes with a body Joi accepts, a GET
    /notes/:id on the id the new note received returns 200 with the very
    note the creation answered, provided that id was not yet in the
    collection. *)
Theorem create_then_get w w' req_post req_get st b id :
  req_method req_post = POST -> req_path req_post = ["notes"] ->
  req_body req_post = Some b ->
  Joi.validate noteSchemaJoi (Some b) = None ->
  req_method req_get = GET -> req_path req_get = ["notes"; id] ->
  castObjectId id = Some (new_id w) ->
  mem_key (new_id w) (ids st) = false ->
  exists note st',
    serve castObjectId w req_post st = (st', status_json 201 (toJSON note))
    /\ _id note = new_id w /\ dateAjout note = now w
    /\ str_prop "titre" b = Some (titre note)
    /\ str_prop "contenu" b = Some (contenu note)
    /\ serve castObjectId w' req_get st' = (st', res_json (toJSON note)).
Proof.
  intros Hm1 Hp1 Hb Hv Hm2 Hp2 Hcast Hfresh.
  apply mem_key_false in Hfresh.
  destruct (destructure_accepted b Hv) as (t & c & Hd & Ht & Hc & Hok).
  set (note := {| _id := new_id w; titre := t; contenu := c;
                  dateAjout := now w; __v := 0 |}).
  exists note, {| notes := notes st ++ [note]; uploads := uploads st |}.
  split; [|do 4 (split; [first [reflexivity | assumption]|])].
  - rewrite serve_post_notes by assumption.
    unfold postNotes, save. rewrite Hb, Hv, Hd, Hok. reflexivity.
  - rewrite (serve_get_note _ _ _ _ id) by assumption.
    unfold getNoteById, findById.
    cbn [param String.eqb Ascii.eqb Bool.eqb notes].
    rewrite Hcast.
    pose proof (find_id_appended (notes st) note Hfresh) as Hfind.
    change (_id note) with (new_id w) in Hfind. rewrite Hfind. reflexivity.
Qed.

(** X7. Create then list: after a successful POST /notes, GET /notes
    returns the notes that were there, in the same order, followed by the
    created one. *)
Theorem create_then_list w w' req_post req_get st st' note :
  req_method req_post = POST -> req_path req_post = ["notes"] ->
  req_method req_get = GET -> req_path req_get = ["notes"] ->
  serve castObjectId w req_post st = (st', status_json 201 (toJSON note)) ->
  serve castObjectId w' req_get st'
  = (st', res_json (JArr (map toJSON (notes st) ++ [toJSON note]))).
Proof.
  intros Hm1 Hp1 Hm2 Hp2 Hpost.
  rewrite serve_get_notes by assumption. unfold getNotes, settle.
  rewrite serve_post_notes in Hpost by assumption.
  unfold postNotes in Hpost.
  destruct (Joi.validate noteSchemaJoi (req_body req_post));
    [discriminate Hpost|].
  destruct (destructure (req_body req_post)) as [[t c]|msg];
    [|discriminate Hpost].
  unfold save in Hpost.
  destruct (validation_error t c); [discriminate Hpost|].
  cbn in Hpost. injection Hpost as <- Ht Hc Hid Hdate Hv.
  destruct note as [nid nt nc nd nv]. cbn in Ht, Hc, Hid, Hdate, Hv. subst.
  cbn [notes]. rewrite map_app. reflexivity.
Qed.

(** X6. Update then read: after a PUT /notes/:id with a body Joi accepts
    on the id of a stored note, a GET /notes/:id with the same id returns
    200 with the new title and content and the [_id] and [dateAjout] the
    note had. *)
Theorem update_then_get w w' req_put req_get st id i n b :
  req_method req_put = PUT -> req_path req_put = ["notes"; id] ->
  req_body req_put = Some b ->
  Joi.validate noteSchemaJoi (Some b) = None ->
  req_method req_get = GET -> req_path req_get = ["notes"; id] ->
  NoDup (ids st) -> notes st !! i = Some n ->
  castObjectId id = Some (_id n) ->
  exists t c st',
    str_prop "titre" b = Some t /\ str_prop "contenu" b = Some c
    /\ fst (serve castObjectId w req_put st) = st'
    /\ serve castObjectId w' req_get st'
       = (st', res_json (toJSON {| _id := _id n; titre := t; contenu := c;
                                   dateAjout := dateAjout n; __v := __v n |})).
Proof.
  intros Hm1 Hp1 Hb Hv Hm2 Hp2 Hnd Hi Hcast.
  destruct (destructure_accepted b Hv) as (t & c & Hd & Ht & Hc & Hok).
  exists t, c,
    {| notes := <[i := set_fields t c n]> (notes st); uploads := uploads st |}.
  split; [exact Ht|]. split; [exact Hc|]. split.
  - rewrite (serve_put_note _ _ _ _ id) by assumption.
    unfold putNote, findByIdAndUpdate.
    cbn [param String.eqb Ascii.eqb Bool.eqb].
    rewrite Hb, Hv, Hd, Hcast, Hok, (find_id_stored _ _ _ Hnd Hi).
    reflexivity.
  - rewrite (serve_get_note _ _ _ _ id) by assumption.
    unfold getNoteById, findById.
    cbn [param String.eqb Ascii.eqb Bool.eqb notes].
    rewrite Hcast.
    assert (Hfind : find_id (_id (set_fields t c n))
                      (<[i := set_fields t c n]> (notes st))
                    = Some (i, set_fields t c n)).
    { apply find_id_stored.
      - rewrite (ids_after_update _ _ _ _ _ Hi). exact Hnd.
      - apply list_lookup_insert_eq. apply lookup_lt_Some in Hi. exact Hi. }
    cbn [set_fields _id] in Hfind. rewrite Hfind. reflexivity.
Qed.

(** X8. Delete leaves the others: after DELETE /notes/:id on a stored
    note, every other stored note is still returned by GET /notes/:id on its
    own id, and GET /notes lists one note fewer. *)
Theorem delete_keeps_the_others w w' w'' req_del req_get req_list st
    id id' i j n m :
  req_method req_del = DELETE -> req_path req_del = ["notes"; id] ->
  req_method req_get = GET -> req_path req_get = ["notes"; id'] ->
  req_method req_list = GET -> req_path req_list = ["notes"] ->
  NoDup (ids st) ->
  notes st !! i = Some n -> notes st !! j = Some m -> i <> j ->
  castObjectId id = Some (_id n) -> castObjectId id' = Some (_id m) ->
  exists st' listed,
    fst (serve castObjectId w req_del st) = st'
    /\ serve castObjectId w' req_get st' = (st', res_json (toJSON m))
    /\ serve castObjectId w'' req_list st' = (st', res_json (JArr listed))
    /\ S (length listed) = length (notes st).
Proof.
  intros Hm1 Hp1 Hm2 Hp2 Hm3 Hp3 Hnd Hi Hj Hij Hcast Hcast'.
  exists {| notes := delete i (notes st); uploads := uploads st |},
         (map toJSON (delete i (notes st))).
  split; [|split; [|split]].
  - rewrite (serve_delete_note _ _ _ _ id) by assumption.
    unfold deleteNote, findByIdAndDelete.
    cbn [param String.eqb Ascii.eqb Bool.eqb].
    rewrite Hcast, (find_id_stored _ _ _ Hnd Hi). reflexivity.
  - rewrite (serve_get_note _ _ _ _ id') by assumption.
    unfold getNoteById, findById.
    cbn [param String.eqb Ascii.eqb Bool.eqb notes].
    rewrite Hcast'.
    assert (Hnd' : NoDup (_id <$> delete i (notes st))).
    { rewrite list_fmap_delete.
      apply (sublist_NoDup _ (_id <$> notes st) Hnd), sublist_delete. }
    destruct (decide (j < i)) as [Hlt|Hge].
    + rewrite (find_id_stored _ j m Hnd'); [reflexivity|].
      rewrite list_lookup_delete_lt by exact Hlt. exact Hj.
    + rewrite (find_id_stored _ (pred j) m Hnd'); [reflexivity|].
      rewrite list_lookup_delete_ge by lia.
      replace (S (pred j)) with j by lia. exact Hj.
  - rewrite serve_get_notes by assumption. reflexivity.
  - rewrite length_map, length_delete by eauto.
    apply lookup_lt_Some in Hi. lia.
Qed.

(** X9. The error paths of update and delete: with a body Joi accepts, PUT
    /notes/:id answers 500 with the cast error for an id that is not
    well-formed and 404 with the fixed message for a well-formed id that
    matches no note; DELETE /notes/:id does the same; the state is unchanged
    in the four cases. *)
Theorem update_delete_error_paths w req_put req_del st id b :
  req_method req_put = PUT -> req_path req_put = ["notes"; id] ->
  req_body req_put = Some b ->
  Joi.validate noteSchemaJoi (Some b) = None ->
  req_method req_del = DELETE -> req_path req_del = ["notes"; id] ->
  (castObjectId id = None ->
   serve castObjectId w req_put st
   = (st, status_json 500 (JObj [ ("erreur", JStr "Erreur serveur");
                                  ("details", JStr (cast_error id)) ]))
   /\ serve castObjectId w req_del st
      = (st, status_json 500 (JObj [ ("erreur", JStr "Erreur serveur");
                                     ("details", JStr (cast_error id)) ])))
  /\ (forall oid, castObjectId id = Some oid -> mem_key oid (ids st) = false ->
      serve castObjectId w req_put st
      = (st, status_json 404 (erreur msg_not_found))
      /\ serve castObjectId w req_del st
         = (st, status_json 404 (erreur msg_not_found))).
Proof.
  intros Hm1 Hp1 Hb Hv Hm2 Hp2.
  destruct (destructure_accepted b Hv) as (t & c & Hd & Ht & Hc & Hok).
  rewrite (serve_put_note _ _ _ _ id), (serve_delete_note _ _ _ _ id)
    by assumption.
  unfold putNote, deleteNote, findByIdAndUpdate, findByIdAndDelete.
  cbn [param String.eqb Ascii.eqb Bool.eqb].
  rewrite Hb, Hv, Hd. split.
  - intros ->. cbn [settle]. rewrite state_eta. split; reflexivity.
  - intros oid -> Hnot. apply mem_key_false in Hnot.
    rewrite Hok, (find_id_absent _ _ Hnot). cbn [settle].
    rewrite state_eta. split; reflexivity.
Qed.

End Composition.

(* ------------------------------------------------------------------ *)
(** ** What the schema accepts, and what it says when it refuses *)

Lemma forallb_filter_negb_nil {A} (p : A -> bool) (l : list A) :
  forallb p l = true -> List.filter (fun x => negb (p x)) l = [].
Proof.
  induction l as [|x l IH]; [reflexivity|].
  cbn. destruct (p x); cbn; [exact IH | discriminate].
Qed.

(** X10. [noteSchemaJoi] accepts a body exactly when it is an object with a
    string [titre] of 2 to 100 characters, a string [contenu] of 2 to 1000
    characters, and no key besides these two. *)
Theorem validate_accepts_iff (b : json) :
  Joi.validate noteSchemaJoi (Some b) = None
  <-> exists fields t c,
        b = JObj fields
        /\ lookup_key "titre" fields = Some (JStr t)
        /\ lookup_key "contenu" fields = Some (JStr c)
        /\ (2 <= String.length t <= 100)%nat
        /\ (2 <= String.length c <= 1000)%nat
        /\ forallb (fun k => mem_key k ["titre"; "contenu"]) (keys fields) = true.
Proof.
  split.
  - intros Hv. pose proof (validate_accepts_keys b Hv) as Hkeys.
    apply validate_accepts in Hv
      as (fields & t & c & -> & Ht & Hc & Hlt & Hlc & _).
    exists fields, t, c. do 5 (split; [first [reflexivity | assumption]|]).
    unfold keys_exactly in Hkeys. apply andb_true_iff in Hkeys as [Hk _].
    exact Hk.
  - intros (fields & t & c & -> & Ht & Hc & Hlt & Hlc & Hk).
    rewrite validate_object.
    assert (Hf : first_violated fields = None).
    { unfold first_violated, note_constraints, field_constraints.
      cbn -[Nat.ltb lookup_key]. rewrite Ht, Hc. cbn -[Nat.ltb].
      destruct t; [cbn in Hlt; lia|]. destruct c; [cbn in Hlc; lia|].
      cbn -[Nat.ltb String.length].
      repeat match goal with
             | |- context [(?a <? ?b)%nat] =>
                 destruct (Nat.ltb_spec a b); [lia|]
             end.
      reflexivity. }
    rewrite Hf.
    change (Joi.unprocessed noteSchemaJoi fields)
      with (List.filter (fun k => negb (mem_key k ["titre"; "contenu"]))
              (keys fields)).
    rewrite (forallb_filter_negb_nil _ _ Hk). reflexivity.
Qed.

Section Messages.

Variable castObjectId : string -> option ObjectId.


End Messages.

(* ------------------------------------------------------------------ *)
(** ** The outcomes of an upload *)


Section Uploads.

Variable castObjectId : string -> option ObjectId.


(** A GET on a path under [/uploads] is handed to the static middleware. *)
Lemma serve_get_upload w req st name :
  req_method req = GET -> req_path req = ["uploads"; name] ->
  serve castObjectId w req st = settle req (serve_uploads [name] w req st).
Proof.
  intros Hm Hp. destruct req. simpl in Hm, Hp. subst.
  unfold serve, app. cbv -[serve_uploads].
  match goal with
  | |- context [serve_uploads ?sub ?w ?r ?s] =>
      destruct (serve_uploads sub w r s) as [? [?| |?]]
  end; reflexivity.
Qed.

Lemma mem_key_last (name : string) (l : list string) :
  mem_key name (l ++ [name])%list = true.
Proof.
  unfold mem_key. rewrite existsb_app. cbn.
  rewrite String.eqb_refl. apply orb_true_iff. right. reflexivity.
Qed.

(** X13. Upload then fetch: after an upload that stored a file, a GET on
    [/uploads/<stored name>], the path of the URL the upload answered, is
    served the file by the static middleware (the server running from its
    own directory, so that the [uploads/] of the storage and the root of the
    static middleware are one directory, as [uploads] of the state has
    it). *)
Theorem upload_then_fetch w w' req_up req_get st ps orig :
  req_method req_up = POST -> req_path req_up = ["upload"] ->
  req_parts req_up = Some ps ->
  file_parts ps = [Multer.File "fichier" orig] -> orig <> EmptyString ->
  req_method req_get = GET ->
  req_path req_get = ["uploads"; JS.toString (now w) ++ "-" ++ orig] ->
  exists st',
    fst (serve castObjectId w req_up st) = st'
    /\ serve castObjectId w' req_get st'
       = (st', {| status := 200;
                  body := FileContent (JS.toString (now w) ++ "-" ++ orig) |}).
Proof.
  intros Hm1 Hp1 Hps Hf Horig Hm2 Hp2.
  exists {| notes := notes st;
            uploads := (uploads st
                        ++ [(JS.toString (now w) ++ "-" ++ orig)%string])%list |}.
  split.
  - rewrite serve_post_upload by assumption.
    unfold postUpload, Multer.single. rewrite Hps.
    rewrite (single_go_one_file _ _ _ _ _ orig Hf Horig). reflexivity.
  - rewrite (serve_get_upload _ _ _ (JS.toString (now w) ++ "-" ++ orig))
      by assumption.
    unfold serve_uploads. rewrite Hm2. cbn [uploads].
    rewrite mem_key_last. reflexivity.
Qed.

End Uploads.



Section UploadRequests.

Variable castObjectId : string -> option ObjectId.


End UploadRequests.

(* ------------------------------------------------------------------ *)
(** ** Pages of the listing *)

Lemma elem_of_insert_by (le : Note -> Note -> bool) (x z : Note) (l : list Note) :
  z ∈ insert_by le x l <-> z = x \/ z ∈ l.
Proof.
  induction l as [|y l IH]; cbn.
  - rewrite list_elem_of_singleton, elem_of_nil. tauto.
  - destruct (le x y).
    + rewrite elem_of_cons. tauto.
    + rewrite !elem_of_cons, IH. tauto.
Qed.

(** Sorting neither adds nor loses a document. *)
Lemma elem_of_sort (path : string) (order : Z) (z : Note) (l : list Note) :
  z ∈ sort path order l <-> z ∈ l.
Proof.
  unfold sort. induction l as [|x l IH]; cbn; [tauto|].
  rewrite elem_of_insert_by, elem_of_cons, IH. tauto.
Qed.

(** Insertion into a sorted list, for a total and transitive order that
    [le] decides. *)
Lemma insert_by_sorted (R : Note -> Note -> Prop) (le : Note -> Note -> bool)
    (x : Note) (l : list Note) :
  (forall a b, le a b = true -> R a b) ->
  (forall a b, le a b = false -> R b a) ->
  (forall a b c, R a b -> R b c -> R a c) ->
  StronglySorted R l -> StronglySorted R (insert_by le x l).
Proof.
  intros Htrue Hfalse Htrans. induction 1 as [|y l Hs IH Hy]; cbn.
  - constructor; constructor.
  - destruct (le x y) eqn:Hle.
    + constructor; [constructor; assumption|].
      constructor; [apply Htrue; exact Hle|].
      eapply Forall_impl; [exact Hy|]. intros z Hz.
      apply (Htrans x y z); [apply Htrue; exact Hle | exact Hz].
    + constructor; [exact IH|].
      apply Forall_forall. intros z Hz.
      apply elem_of_insert_by in Hz as [-> | Hz].
      * apply Hfalse. exact Hle.
      * rewrite Forall_forall in Hy. apply Hy. exact Hz.
Qed.

(** The direction the handler asks for is 1 or -1. *)
Lemma query_sortOrder_cases (q : gmap string string) :
  query_sortOrder q = 1%Z \/ query_sortOrder q = (-1)%Z.
Proof.
  unfold query_sortOrder. destruct (q !! "order") as [o|]; [|now right].
  destruct (String.eqb o "asc"); [now left | now right].
Qed.

(** Sorted on [dateAjout], the collection is in the order of the
    timestamps. *)
Lemma sort_by_dateAjout (order : Z) (l : list Note) :
  order <> 0%Z -> StronglySorted (by_dateAjout order) (sort "dateAjout" order l).
Proof.
  intros Ho. unfold sort. induction l as [|x l IH]; [constructor|].
  cbn [foldr]. apply insert_by_sorted; [| | |exact IH].
  - intros a b. unfold before, by_dateAjout. cbn.
    destruct (Z.compare_spec (dateAjout a) (dateAjout b)),
             (Z.ltb_spec 0 order), (Z.ltb_spec order 0);
      intros; try discriminate; lia.
  - intros a b. unfold before, by_dateAjout. cbn.
    destruct (Z.compare_spec (dateAjout a) (dateAjout b)),
             (Z.ltb_spec 0 order), (Z.ltb_spec order 0);
      intros; try discriminate; lia.
  - intros a b c. unfold by_dateAjout. destruct (0 <? order)%Z; lia.
Qed.


(** X18. A negative page is an error of the listing: with a page below 0
    and a limit of at least 1 the skip is negative, the query is refused, and
    the handler answers 500 with [{error: ...}] (the key is [error] here, not
    [erreur]), state unchanged. *)
Theorem negative_page_is_an_error w req st :
  (query_page (req_query req) < 0)%Z -> (1 <= query_limit (req_query req))%Z ->
  getNotesPaged [] w req st
  = (st, Respond (status_json 500 (JObj [("error", JStr msg_listing_failed)]))).
Proof.
  intros Hp HL. unfold getNotesPaged, find_page, skip.
  destruct (Z.ltb_spec ((query_page (req_query req) - 1)
                        * query_limit (req_query req)) 0);
    [reflexivity | nia].
Qed.

(** X15. Sorted on [dateAjout], a page is in the order of the creation
    timestamps: oldest first with [order=asc], newest first otherwise; and
    it only holds notes of the collection.  This for a page, a limit and a
    skip below 2^53, where the numbers of JavaScript are exact, and a skip
    that is not negative. *)
Theorem listing_by_dateAjout_is_ordered w req st :
  req_query req !! "sortBy" = Some "dateAjout" ->
  exact_page_query (req_query req) = true ->
  (0 <= (query_page (req_query req) - 1) * query_limit (req_query req))%Z ->
  exists found,
    getNotesPaged [] w req st
    = (st, Respond (res_json
             (page_json (query_page (req_query req))
                (JS.ceil_div (countDocuments (notes st))
                   (query_limit (req_query req)))
                (countDocuments (notes st)) found)))
    /\ StronglySorted (by_dateAjout (query_sortOrder (req_query req))) found
    /\ forall n, n ∈ found -> n ∈ notes st.
Proof.
  intros Hq _ Hs.
  set (q := req_query req) in *.
  set (sorted := sort "dateAjout" (query_sortOrder q) (notes st)).
  exists (limit (query_limit q)
            (drop (Z.to_nat ((query_page q - 1) * query_limit q)) sorted)).
  assert (Hkey : query_sortBy q = "dateAjout").
  { unfold query_sortBy. rewrite Hq. reflexivity. }
  assert (Hsorted : StronglySorted (by_dateAjout (query_sortOrder q)) sorted).
  { apply sort_by_dateAjout. destruct (query_sortOrder_cases q); lia. }
  split; [|split].
  - unfold getNotesPaged, find_page, skip. fold q. rewrite Hkey.
    destruct (Z.ltb_spec ((query_page q - 1) * query_limit q) 0);
      [lia | reflexivity].
  - unfold limit.
    rewrite <- (take_drop (Z.to_nat ((query_page q - 1) * query_limit q)) sorted)
      in Hsorted.
    apply StronglySorted_app_1_r in Hsorted.
    rewrite <- (take_drop (Z.to_nat (Z.abs (query_limit q)))
                  (drop (Z.to_nat ((query_page q - 1) * query_limit q)) sorted))
      in Hsorted.
    apply StronglySorted_app_1_l in Hsorted. exact Hsorted.
  - intros n Hn. unfold limit in Hn.
    apply (elem_of_sort "dateAjout" (query_sortOrder q)).
    eapply elem_of_sublist; [|apply sublist_drop].
    eapply elem_of_sublist; [exact Hn | apply sublist_take].
Qed.

(* ------------------------------------------------------------------ *)
(** ** What every answer looks like *)




Section Answers.

Variable castObjectId : string -> option ObjectId.


(** X17. What a request never does: it never changes the notes and the
    uploaded files together, it changes the number of notes by at most one,
    and it never removes or renames an uploaded file. *)
Theorem request_changes_one_thing w req st :
  let st' := fst (serve castObjectId w req st) in
  (notes st' = notes st \/ uploads st' = uploads st)
  /\ (length (notes st') = length (notes st)
      \/ length (notes st') = S (length (notes st))
      \/ S (length (notes st')) = length (notes st))
  /\ exists added, uploads st' = (uploads st ++ added)%list.
Proof.
  intros st'. unfold st'.
  destruct (serve_changes castObjectId w req st) as [-> | Hc].
  - split; [left; reflexivity|]. split; [left; reflexivity|].
    exists []. rewrite app_nil_r. reflexivity.
  - destruct Hc as [t c _ _ -> | i n t c Hi _ _ -> | i n Hi -> | name ->];
      cbn [notes uploads].
    + split; [right; reflexivity|]. split.
      * right. left. rewrite length_app. cbn. lia.
      * exists []. rewrite app_nil_r. reflexivity.
    + split; [right; reflexivity|]. split.
      * left. apply length_insert.
      * exists []. rewrite app_nil_r. reflexivity.
    + split; [right; reflexivity|]. split.
      * right. right. rewrite length_delete by eauto.
        apply lookup_lt_Some in Hi. lia.
      * exists []. rewrite app_nil_r. reflexivity.
    + split; [left; reflexivity|]. split; [left; reflexivity|].
      exists [name]. reflexivity.
Qed.

End Answers.

(* ------------------------------------------------------------------ *)
(** ** Repeated requests *)

Section Repeated.

Variable castObjectId : string -> option ObjectId.

(** X19. PUT is idempotent: the same update sent a second time gets the
    same answer as the first and leaves the state as the first left it. *)
Theorem update_is_idempotent w w' req st id i n b :
  req_method req = PUT -> req_path req = ["notes"; id] ->
  req_body req = Some b ->
  Joi.validate noteSchemaJoi (Some b) = None ->
  NoDup (ids st) -> notes st !! i = Some n ->
  castObjectId id = Some (_id n) ->
  serve castObjectId w' req (fst (serve castObjectId w req st))
  = serve castObjectId w req st.
Proof.
  intros Hm Hp Hb Hv Hnd Hi Hcast.
  destruct (destructure_accepted b Hv) as (t & c & Hd & Ht & Hc & Hok).
  assert (Hfirst : serve castObjectId w req st
                   = ({| notes := <[i := set_fields t c n]> (notes st);
                         uploads := uploads st |},
                      res_json (JObj [ ("message", JStr msg_updated);
                                       ("note", toJSON (set_fields t c n)) ]))).
  { rewrite (serve_put_note _ _ _ _ id) by assumption.
    unfold putNote, findByIdAndUpdate.
    cbn [param String.eqb Ascii.eqb Bool.eqb].
    rewrite Hb, Hv, Hd, Hcast, Hok, (find_id_stored _ _ _ Hnd Hi).
    reflexivity. }
  rewrite Hfirst. cbn [fst].
  rewrite (serve_put_note _ _ _ _ id) by assumption.
  unfold putNote, findByIdAndUpdate.
  cbn [param String.eqb Ascii.eqb Bool.eqb notes uploads].
  rewrite Hb, Hv, Hd, Hcast, Hok.
  assert (Hfind : find_id (_id (set_fields t c n))
                    (<[i := set_fields t c n]> (notes st))
                  = Some (i, set_fields t c n)).
  { apply find_id_stored.
    - rewrite (ids_after_update _ _ _ _ _ Hi). exact Hnd.
    - apply list_lookup_insert_eq. apply lookup_lt_Some in Hi. exact Hi. }
  cbn [set_fields _id] in Hfind. rewrite Hfind.
  rewrite list_insert_insert_eq. reflexivity.
Qed.

(** X20. DELETE is not repeated: after a DELETE /notes/:id that removed a
    note, the same request gets 404 with the fixed message and removes
    nothing more. *)
Theorem delete_twice_not_found w w' req st id i n :
  req_method req = DELETE -> req_path req = ["notes"; id] ->
  NoDup (ids st) -> notes st !! i = Some n ->
  castObjectId id = Some (_id n) ->
  let st' := fst (serve castObjectId w req st) in
  serve castObjectId w' req st' = (st', status_json 404 (erreur msg_not_found)).
Proof.
  intros Hm Hp Hnd Hi Hcast st'.
  assert (Hst : st' = {| notes := delete i (notes st); uploads := uploads st |}).
  { unfold st'. rewrite (serve_delete_note _ _ _ _ id) by assumption.
    unfold deleteNote, findByIdAndDelete.
    cbn [param String.eqb Ascii.eqb Bool.eqb].
    rewrite Hcast, (find_id_stored _ _ _ Hnd Hi). reflexivity. }
  rewrite Hst.
  rewrite (serve_delete_note _ _ _ _ id) by assumption.
  unfold deleteNote, findByIdAndDelete.
  cbn [param String.eqb Ascii.eqb Bool.eqb notes uploads].
  rewrite Hcast, (find_id_absent _ _ (deleted_id_absent _ _ _ Hnd Hi)).
  reflexivity.
Qed.


End Repeated.

(* ------------------------------------------------------------------ *)
(** ** Names of the stored files *)

(** Two runs of digits followed by a hyphen: equal strings have equal
    digits and equal remainders. *)
Lemma digits_then_hyphen (d1 d2 : Decimal.uint) (o1 o2 : string) :
  NilEmpty.string_of_uint d1 ++ String "-" o1
  = NilEmpty.string_of_uint d2 ++ String "-" o2 ->
  d1 = d2 /\ o1 = o2.
Proof.
  revert d2. induction d1 as [|d1 IH|d1 IH|d1 IH|d1 IH|d1 IH|d1 IH|d1 IH|d1 IH
                              |d1 IH|d1 IH];
    intros [|d2|d2|d2|d2|d2|d2|d2|d2|d2|d2] H; cbn in H;
    try discriminate H; injection H as H;
    try (split; [reflexivity | exact H]);
    destruct (IH d2 H) as [-> ->]; split; reflexivity.
Qed.

(** The decimal form of a natural number is a run of digits. *)
Lemma toString_digits (n : Z) :
  (0 <= n)%Z ->
  exists d, Z.to_int n = Decimal.Pos d
            /\ JS.toString n = NilEmpty.string_of_uint d.
Proof.
  intros Hn. unfold JS.toString. destruct n as [|p|p]; [| |lia].
  - exists (Decimal.D0 Decimal.Nil). split; reflexivity.
  - exists (Pos.to_uint p). split; [reflexivity|].
    cbn. unfold NilZero.string_of_uint.
    destruct (Pos.to_uint p) eqn:Hp; try reflexivity.
    exfalso. revert Hp. apply DecimalPos.Unsigned.to_uint_nonnil.
Qed.

(** X21. Stored names collide only on equal inputs: two uploads get the
    same stored name only if they have the same timestamp and the same
    original name. *)
Theorem stored_names_collide_only_on_equal_inputs now1 now2 orig1 orig2 :
  (0 <= now1)%Z -> (0 <= now2)%Z ->
  storage_filename now1 orig1 = storage_filename now2 orig2 ->
  now1 = now2 /\ orig1 = orig2.
Proof.
  intros H1 H2 Heq. unfold storage_filename in Heq.
  destruct (toString_digits now1 H1) as (d1 & Hd1 & Hs1).
  destruct (toString_digits now2 H2) as (d2 & Hd2 & Hs2).
  rewrite Hs1, Hs2 in Heq.
  apply digits_then_hyphen in Heq as [-> ->].
  split; [|reflexivity].
  apply DecimalZ.to_int_inj. congruence.
Qed.

(* ------------------------------------------------------------------ *)
(** ** The further theorems at sample requests *)

Lemma ex_state_well_formed : well_formed ex_state.
Proof.
  split; [exact ex_state_unique_ids|].
  repeat apply Forall_cons_2; try apply Forall_nil_2; split; cbn; lia.
Defined.

Lemma unknown_route_404_witness :
  serve hex24 ex_world (ex_request GET ["nonexistent"] ∅ None None) ex_state
  = (ex_state, status_json 404 (erreur "Route inconnue")).
Proof.
  apply (unknown_route_404 hex24 ex_world
           (ex_request GET ["nonexistent"] ∅ None None) ex_state).
  - discriminate.
  - discriminate.
  - reflexivity.
  - reflexivity.
Defined.

Lemma serve_keeps_well_formed_witness :
  well_formed
    (fst (serve hex24 ex_world
            (ex_request POST ["notes"] ∅ (Some ex_body) None) ex_state)).
Proof.
  apply (serve_keeps_well_formed hex24 ex_world
           (ex_request POST ["notes"] ∅ (Some ex_body) None) ex_state).
  - reflexivity.
  - exact ex_state_well_formed.
Defined.

Lemma safe_methods_read_only_witness :
  fst (serve hex24 ex_world
         (ex_request HEAD ["notes"; "65a000000000000000000001"] ∅ None None)
         ex_state)
  = ex_state.
Proof.
  apply (safe_methods_read_only hex24 ex_world
           (ex_request HEAD ["notes"; "65a000000000000000000001"] ∅ None None)
           ex_state).
  reflexivity.
Defined.

Lemma create_then_get_witness :
  exists note st',
    serve hex24 ex_world (ex_request POST ["notes"] ∅ (Some ex_body) None)
      ex_state
    = (st', status_json 201 (toJSON note))
    /\ _id note = new_id ex_world /\ dateAjout note = now ex_world
    /\ str_prop "titre" ex_body = Some (titre note)
    /\ str_prop "contenu" ex_body = Some (contenu note)
    /\ serve hex24 ex_world
         (ex_request GET ["notes"; "65A000000000000000000003"] ∅ None None) st'
       = (st', res_json (toJSON note)).
Proof.
  apply (create_then_get hex24 ex_world ex_world
           (ex_request POST ["notes"] ∅ (Some ex_body) None)
           (ex_request GET ["notes"; "65A000000000000000000003"] ∅ None None)
           ex_state ex_body "65A000000000000000000003"); reflexivity.
Defined.

Lemma create_then_list_witness :
  serve hex24 ex_world (ex_request GET ["notes"] ∅ None None) ex_state_created
  = (ex_state_created,
     res_json (JArr (map toJSON (notes ex_state) ++ [toJSON ex_note3]))).
Proof.
  apply (create_then_list hex24 ex_world ex_world
           (ex_request POST ["notes"] ∅ (Some ex_body) None)
           (ex_request GET ["notes"] ∅ None None)
           ex_state ex_state_created ex_note3); reflexivity.
Defined.

Lemma update_then_get_witness :
  exists t c st',
    str_prop "titre" ex_body = Some t /\ str_prop "contenu" ex_body = Some c
    /\ fst (serve hex24 ex_world
              (ex_request PUT ["notes"; "65a000000000000000000002"] ∅
                 (Some ex_body) None) ex_state)
       = st'
    /\ serve hex24 ex_world
         (ex_request GET ["notes"; "65a000000000000000000002"] ∅ None None) st'
       = (st', res_json (toJSON {| _id := _id ex_note2; titre := t;
                                   contenu := c;
                                   dateAjout := dateAjout ex_note2;
                                   __v := __v ex_note2 |})).
Proof.
  apply (update_then_get hex24 ex_world ex_world
           (ex_request PUT ["notes"; "65a000000000000000000002"] ∅
              (Some ex_body) None)
           (ex_request GET ["notes"; "65a000000000000000000002"] ∅ None None)
           ex_state "65a000000000000000000002" 1 ex_note2 ex_body);
    try reflexivity.
  exact ex_state_unique_ids.
Defined.

Lemma delete_keeps_the_others_witness :
  exists st' listed,
    fst (serve hex24 ex_world
           (ex_request DELETE ["notes"; "65a000000000000000000001"] ∅ None None)
           ex_state)
    = st'
    /\ serve hex24 ex_world
         (ex_request GET ["notes"; "65a000000000000000000002"] ∅ None None) st'
       = (st', res_json (toJSON ex_note2))
    /\ serve hex24 ex_world (ex_request GET ["notes"] ∅ None None) st'
       = (st', res_json (JArr listed))
    /\ S (length listed) = length (notes ex_state).
Proof.
  apply (delete_keeps_the_others hex24 ex_world ex_world ex_world
           (ex_request DELETE ["notes"; "65a000000000000000000001"] ∅ None None)
           (ex_request GET ["notes"; "65a000000000000000000002"] ∅ None None)
           (ex_request GET ["notes"] ∅ None None)
           ex_state "65a000000000000000000001" "65a000000000000000000002"
           0 1 ex_note1 ex_note2); try reflexivity.
  - exact ex_state_unique_ids.
  - lia.
Defined.

Lemma update_delete_error_paths_witness :
  (serve hex24 ex_world
     (ex_request PUT ["notes"; "abc"] ∅ (Some ex_body) None) ex_state
   = (ex_state,
      status_json 500 (JObj [ ("erreur", JStr "Erreur serveur");
                              ("details", JStr (cast_error "abc")) ]))
   /\ serve hex24 ex_world
        (ex_request DELETE ["notes"; "abc"] ∅ None None) ex_state
      = (ex_state,
         status_json 500 (JObj [ ("erreur", JStr "Erreur serveur");
                                 ("details", JStr (cast_error "abc")) ])))
  /\ (serve hex24 ex_world
        (ex_request PUT ["notes"; "65a000000000000000000009"] ∅
           (Some ex_body) None) ex_state
      = (ex_state, status_json 404 (erreur msg_not_found))
      /\ serve hex24 ex_world
           (ex_request DELETE ["notes"; "65a000000000000000000009"] ∅ None None)
           ex_state
         = (ex_state, status_json 404 (erreur msg_not_found))).
Proof.
  split.
  - apply (update_delete_error_paths hex24 ex_world
             (ex_request PUT ["notes"; "abc"] ∅ (Some ex_body) None)
             (ex_request DELETE ["notes"; "abc"] ∅ None None)
             ex_state "abc" ex_body); reflexivity.
  - apply (proj2 (update_delete_error_paths hex24 ex_world
                    (ex_request PUT ["notes"; "65a000000000000000000009"] ∅
                       (Some ex_body) None)
                    (ex_request DELETE ["notes"; "65a000000000000000000009"]
                       ∅ None None)
                    ex_state "65a000000000000000000009" ex_body
                    eq_refl eq_refl eq_refl eq_refl eq_refl eq_refl)
             "65a000000000000000000009"); reflexivity.
Defined.



Lemma upload_then_fetch_witness :
  exists st',
    fst (serve hex24 ex_world
           (ex_request POST ["upload"] ∅ None (Some ex_one_file)) ex_state)
    = st'
    /\ serve hex24 ex_world
         (ex_request GET ["uploads"; "1700000000000-cours.pdf"] ∅ None None) st'
       = (st', {| status := 200;
                  body := FileContent "1700000000000-cours.pdf" |}).
Proof.
  apply (upload_then_fetch hex24 ex_world ex_world
           (ex_request POST ["upload"] ∅ None (Some ex_one_file))
           (ex_request GET ["uploads"; "1700000000000-cours.pdf"] ∅ None None)
           ex_state ex_one_file "cours.pdf"); try reflexivity.
  discriminate.
Defined.


Lemma negative_page_is_an_error_witness :
  getNotesPaged [] ex_world
    (ex_request GET ["notes"] {[ "page" := "-1" ]} None None) ex_state
  = (ex_state,
     Respond (status_json 500 (JObj [("error", JStr msg_listing_failed)]))).
Proof.
  apply (negative_page_is_an_error ex_world
           (ex_request GET ["notes"] {[ "page" := "-1" ]} None None) ex_state);
    vm_compute; first [reflexivity | discriminate].
Defined.

Lemma listing_by_dateAjout_is_ordered_witness :
  let req := ex_request GET ["notes"] {[ "sortBy" := "dateAjout" ]} None None in
  exists found,
    getNotesPaged [] ex_world req ex_state
    = (ex_state,
       Respond (res_json
                  (page_json (query_page (req_query req))
                     (JS.ceil_div (countDocuments (notes ex_state))
                        (query_limit (req_query req)))
                     (countDocuments (notes ex_state)) found)))
    /\ StronglySorted (by_dateAjout (query_sortOrder (req_query req))) found
    /\ forall n, n ∈ found -> n ∈ notes ex_state.
Proof.
  apply (listing_by_dateAjout_is_ordered ex_world
           (ex_request GET ["notes"] {[ "sortBy" := "dateAjout" ]} None None)
           ex_state); [reflexivity | reflexivity | vm_compute; discriminate].
Defined.

Lemma update_is_idempotent_witness :
  let req := ex_request PUT ["notes"; "65a000000000000000000002"] ∅
               (Some ex_body) None in
  serve hex24 ex_world req (fst (serve hex24 ex_world req ex_state))
  = serve hex24 ex_world req ex_state.
Proof.
  apply (update_is_idempotent hex24 ex_world ex_world
           (ex_request PUT ["notes"; "65a000000000000000000002"] ∅
              (Some ex_body) None)
           ex_state "65a000000000000000000002" 1 ex_note2 ex_body);
    try reflexivity.
  exact ex_state_unique_ids.
Defined.

Lemma delete_twice_not_found_witness :
  let req := ex_request DELETE ["notes"; "65a000000000000000000001"] ∅
               None None in
  let st' := fst (serve hex24 ex_world req ex_state) in
  serve hex24 ex_world req st' = (st', status_json 404 (erreur msg_not_found)).
Proof.
  apply (delete_twice_not_found hex24 ex_world ex_world
           (ex_request DELETE ["notes"; "65a000000000000000000001"] ∅ None None)
           ex_state "65a000000000000000000001" 0 ex_note1);
    try reflexivity.
  exact ex_state_unique_ids.
Defined.


Lemma stored_names_collide_only_on_equal_inputs_witness :
  1700000000000%Z = 1700000000000%Z /\ "cours.pdf" = "cours.pdf".
Proof.
  apply (stored_names_collide_only_on_equal_inputs
           1700000000000 1700000000000 "cours.pdf" "cours.pdf");
    [lia | lia | reflexivity].
Defined.



